(** * lambda_jwt_router: a shallow embedding of the response builder,
      the middleware, the parameter resolver and the transport adapter.

    Go strings are byte sequences: they are modelled as [string], whose
    characters are 8-bit [ascii] values, and Go's [len] is [String.length].
    Go maps are modelled as stdpp's [gmap]; a nil map read by the code behaves
    as the empty map and is modelled by [∅], except where the code tests a map
    against nil, where the argument is an [option]. Go's [int] values are [Z]
    (no arithmetic is done on them, so no wrap-around can occur). *)

From Stdlib Require Import ZArith NArith Ascii String DecimalString List Bool Lia.
From stdpp Require Import base option list gmap strings fin_maps.

Local Open Scope Z_scope.

(** ** The parts of the Go standard library the code calls *)

Module Go.

(** The double quote character, and a text between double quotes. *)
Definition dquote : string := String (ascii_of_nat 34) EmptyString.
Definition backslash : ascii := ascii_of_nat 92.
Definition quoted (s : string) : string := dquote +:+ s +:+ dquote.

(** strconv.Itoa, which is also what encoding/json and the verb %d write
    for an int. *)
Definition Itoa (z : Z) : string := NilZero.string_of_int (Z.to_int z).

(** strings.HasPrefix. *)
Fixpoint HasPrefix (s prefix : string) : bool :=
  match prefix, s with
  | EmptyString, _ => true
  | String p prefix', String c s' =>
      if Ascii.eqb p c then HasPrefix s' prefix' else false
  | String _ _, EmptyString => false
  end.

(** net/http's StatusText: the reason phrase of a status code, and the
    empty string for a code it does not know. *)
Definition StatusText (code : Z) : string :=
  match code with
  | 100 => "Continue"
  | 101 => "Switching Protocols"
  | 102 => "Processing"
  | 103 => "Early Hints"
  | 200 => "OK"
  | 201 => "Created"
  | 202 => "Accepted"
  | 203 => "Non-Authoritative Information"
  | 204 => "No Content"
  | 205 => "Reset Content"
  | 206 => "Partial Content"
  | 207 => "Multi-Status"
  | 208 => "Already Reported"
  | 226 => "IM Used"
  | 300 => "Multiple Choices"
  | 301 => "Moved Permanently"
  | 302 => "Found"
  | 303 => "See Other"
  | 304 => "Not Modified"
  | 305 => "Use Proxy"
  | 307 => "Temporary Redirect"
  | 308 => "Permanent Redirect"
  | 400 => "Bad Request"
  | 401 => "Unauthorized"
  | 402 => "Payment Required"
  | 403 => "Forbidden"
  | 404 => "Not Found"
  | 405 => "Method Not Allowed"
  | 406 => "Not Acceptable"
  | 407 => "Proxy Authentication Required"
  | 408 => "Request Timeout"
  | 409 => "Conflict"
  | 410 => "Gone"
  | 411 => "Length Required"
  | 412 => "Precondition Failed"
  | 413 => "Request Entity Too Large"
  | 414 => "Request URI Too Long"
  | 415 => "Unsupported Media Type"
  | 416 => "Requested Range Not Satisfiable"
  | 417 => "Expectation Failed"
  | 418 => "I'm a teapot"
  | 421 => "Misdirected Request"
  | 422 => "Unprocessable Entity"
  | 423 => "Locked"
  | 424 => "Failed Dependency"
  | 425 => "Too Early"
  | 426 => "Upgrade Required"
  | 428 => "Precondition Required"
  | 429 => "Too Many Requests"
  | 431 => "Request Header Fields Too Large"
  | 451 => "Unavailable For Legal Reasons"
  | 500 => "Internal Server Error"
  | 501 => "Not Implemented"
  | 502 => "Bad Gateway"
  | 503 => "Service Unavailable"
  | 504 => "Gateway Timeout"
  | 505 => "HTTP Version Not Supported"
  | 506 => "Variant Also Negotiates"
  | 507 => "Insufficient Storage"
  | 508 => "Loop Detected"
  | 510 => "Not Extended"
  | 511 => "Network Authentication Required"
  | _ => ""
  end.

Definition StatusOK : Z := 200.
Definition StatusInternalServerError : Z := 500.

(** *** encoding/json *)

Definition hex (n : N) : ascii :=
  ascii_of_N (if (n <? 10)%N then 48 + n else 87 + n)%N.

(** What the encoder writes for one byte below 0x80 (HTML escaping is on,
    as it is for json.Marshal): the quote and the backslash get a backslash,
    newline, carriage return and tab their short form, the other control
    characters and <, > and & the form \u00XX (Go releases from 1.22 on
    also shorten backspace and form feed; no property below depends on
    it). *)
Definition escape_byte (a : ascii) : string :=
  let b := N_of_ascii a in
  if ((b =? 34) || (b =? 92))%N then String backslash (String a EmptyString)
  else if (b =? 10)%N then String backslash "n"
  else if (b =? 13)%N then String backslash "r"
  else if (b =? 9)%N then String backslash "t"
  else if ((b <? 32) || (b =? 60) || (b =? 62) || (b =? 38))%N
       then String backslash ("u00" +:+ String (hex (b / 16)) (String (hex (b mod 16)) EmptyString))
  else String a EmptyString.

Definition continuation (b : N) : bool := ((128 <=? b) && (b <=? 191))%N.

(** utf8.DecodeRuneInString, as far as the encoder uses it: the size of
    the well-formed UTF-8 sequence a string starts with (2, 3 or 4), or 1
    when the first byte (0x80 or above) does not start one. *)
Definition rune_size (s : string) : nat :=
  match s with
  | String a0 (String a1 rest) =>
      let b0 := N_of_ascii a0 in
      let b1 := N_of_ascii a1 in
      if ((194 <=? b0) && (b0 <=? 223))%N then
        if continuation b1 then 2%nat else 1%nat
      else
        match rest with
        | String a2 rest' =>
            let b2 := N_of_ascii a2 in
            let second3 :=
              (if (b0 =? 224) then (160 <=? b1) && (b1 <=? 191)
               else if (b0 =? 237) then (128 <=? b1) && (b1 <=? 159)
               else continuation b1)%N in
            if ((224 <=? b0) && (b0 <=? 239))%N then
              if second3 && continuation b2 then 3%nat else 1%nat
            else
              match rest' with
              | String a3 _ =>
                  let b3 := N_of_ascii a3 in
                  let second4 :=
                    (if (b0 =? 240) then (144 <=? b1) && (b1 <=? 191)
                     else if (b0 =? 244) then (128 <=? b1) && (b1 <=? 143)
                     else continuation b1)%N in
                  if ((240 <=? b0) && (b0 <=? 244))%N then
                    if second4 && continuation b2 && continuation b3
                    then 4%nat else 1%nat
                  else 1%nat
              | EmptyString => 1%nat
              end
        | EmptyString => 1%nat
        end
  | _ => 1%nat
  end.

(** U+2028 and U+2029 (E2 80 A8 and E2 80 A9) are written escaped, as a
    backslash followed by u2028 or u2029. *)
Definition line_separator (s : string) : option string :=
  match s with
  | String a0 (String a1 (String a2 _)) =>
      if ((N_of_ascii a0 =? 226) && (N_of_ascii a1 =? 128))%N then
        if (N_of_ascii a2 =? 168)%N then Some (String backslash "u2028")
        else if (N_of_ascii a2 =? 169)%N then Some (String backslash "u2029")
        else None
      else None
  | _ => None
  end.

(** The encoder's walk over the bytes of a string. [pending] counts the
    bytes of the current multi-byte character still to handle: they are
    copied when [copy] is set and dropped otherwise (after an escaped line
    separator). An ill-formed byte is written as a
    backslash followed by ufffd, and the walk resumes at the next byte. *)
Fixpoint encode_bytes (pending : nat) (copy : bool) (s : string) : string :=
  match s with
  | EmptyString => EmptyString
  | String a rest =>
      match pending with
      | S n =>
          if copy then String a (encode_bytes n copy rest)
          else encode_bytes n copy rest
      | O =>
          if (N_of_ascii a <? 128)%N then escape_byte a +:+ encode_bytes 0 true rest
          else
            match rune_size s with
            | S (S n) =>
                match line_separator s with
                | Some esc => esc +:+ encode_bytes (S n) false rest
                | None => String a (encode_bytes (S n) true rest)
                end
            | _ => String backslash "ufffd" +:+ encode_bytes 0 true rest
            end
      end
  end.

(** A Go string as a JSON string. *)
Definition json_string (s : string) : string := quoted (encode_bytes 0 true s).

(** The value handed to json.Marshal, by the JSON shape encoding/json
    derives from its Go type: a struct is the list of its exported fields
    under their JSON names, in declaration order. [JUnsupported] is a value
    the encoder rejects (a channel, a function, a complex number, a NaN). *)
#[local] Unset Elimination Schemes.
Inductive data : Type :=
| JNull
| JBool (b : bool)
| JInt (z : Z)
| JString (s : string)
| JSlice (elems : list data)
| JStruct (fields : list (string * data))
| JUnsupported.
#[local] Set Elimination Schemes.

Fixpoint join (sep : string) (parts : list string) : string :=
  match parts with
  | [] => EmptyString
  | [p] => p
  | p :: rest => p +:+ sep +:+ join sep rest
  end.

(** json.Marshal: the encoding, or [None] when it returns an error. *)
Fixpoint Marshal (v : data) : option string :=
  match v with
  | JNull => Some "null"
  | JBool b => Some (if b then "true" else "false")
  | JInt z => Some (Itoa z)
  | JString s => Some (json_string s)
  | JSlice elems =>
      let fix each (l : list data) : option (list string) :=
        match l with
        | [] => Some []
        | x :: l' =>
            match Marshal x, each l' with
            | Some e, Some es => Some (e :: es)
            | _, _ => None
            end
        end in
      match each elems with
      | Some es => Some ("[" +:+ join "," es +:+ "]")
      | None => None
      end
  | JStruct fields =>
      let fix each (l : list (string * data)) : option (list string) :=
        match l with
        | [] => Some []
        | (name, x) :: l' =>
            match Marshal x, each l' with
            | Some e, Some es => Some ((json_string name +:+ ":" +:+ e) :: es)
            | _, _ => None
            end
        end in
      match each fields with
      | Some es => Some ("{" +:+ join "," es +:+ "}")
      | None => None
      end
  | JUnsupported => None
  end.

(** *** encoding/base64, StdEncoding.EncodeToString *)

Definition b64_char (n : N) : ascii :=
  ascii_of_N (if (n <? 26) then 65 + n
              else if (n <? 52) then 71 + n
              else if (n <? 62) then n - 4
              else if (n =? 62) then 43 else 47)%N.

Fixpoint EncodeToString (s : string) : string :=
  match s with
  | EmptyString => EmptyString
  | String a0 EmptyString =>
      let b0 := N_of_ascii a0 in
      String (b64_char (b0 / 4))
        (String (b64_char ((b0 mod 4) * 16)) "==")
  | String a0 (String a1 EmptyString) =>
      let b0 := N_of_ascii a0 in
      let b1 := N_of_ascii a1 in
      String (b64_char (b0 / 4))
        (String (b64_char ((b0 mod 4) * 16 + b1 / 16))
           (String (b64_char ((b1 mod 16) * 4)) "="))
  | String a0 (String a1 (String a2 rest)) =>
      let b0 := N_of_ascii a0 in
      let b1 := N_of_ascii a1 in
      let b2 := N_of_ascii a2 in
      String (b64_char (b0 / 4))
        (String (b64_char ((b0 mod 4) * 16 + b1 / 16))
           (String (b64_char ((b1 mod 16) * 4 + b2 / 64))
              (String (b64_char (b2 mod 64)) (EncodeToString rest))))
  end%N.

End Go.


(** ** github.com/aws/aws-lambda-go/events: the gateway event model *)

Module Events.

Record APIGatewayProxyRequest : Type := {
  Body : string;
  HTTPMethod : string;
  Headers : gmap string string;
  IsBase64Encoded : bool;
  MultiValueHeaders : gmap string (list string);
  MultiValueQueryStringParameters : gmap string (list string);
  Path : string;
  PathParameters : gmap string string;
  QueryStringParameters : gmap string string;
  RequestID : string   (* RequestContext.RequestID *)
}.

Record APIGatewayProxyResponse : Type := {
  StatusCode : Z;
  ResHeaders : gmap string string;              (* Headers *)
  ResMultiValueHeaders : gmap string (list string);
  ResBody : string;                             (* Body *)
  ResIsBase64Encoded : bool                     (* IsBase64Encoded *)
}.

Definition with_StatusCode (code : Z) (res : APIGatewayProxyResponse) :=
  {| StatusCode := code;
     ResHeaders := ResHeaders res;
     ResMultiValueHeaders := ResMultiValueHeaders res;
     ResBody := ResBody res;
     ResIsBase64Encoded := ResIsBase64Encoded res |}.

End Events.

(** ** Package lcom: constants, and the parameter resolver *)

Module Lcom.

(** Modelled from the spec: the constant declarations of package lcom are
    not under src/. The spec (section 6) names the three response headers
    Access-Control-Allow-Headers, -Methods and -Origin; the names of the
    environment variables and the content type key are the ones package
    lambda_router declares for constants of the same names. *)
Definition ContentTypeKey : string := "Content-Type".
Definition CORSHeadersHeaderKey : string := "Access-Control-Allow-Headers".
Definition CORSMethodsHeaderKey : string := "Access-Control-Allow-Methods".
Definition CORSOriginHeaderKey : string := "Access-Control-Allow-Origin".
Definition CORSHeadersEnvKey : string := "LAMBDA_JWT_ROUTER_CORS_HEADERS".
Definition CORSMethodsEnvKey : string := "LAMBDA_JWT_ROUTER_CORS_METHODS".
Definition CORSOriginEnvKey : string := "LAMBDA_JWT_ROUTER_CORS_ORIGIN".

(** The keys under which the middleware stores values in the request
    context, and the claim names. Their declarations are not under src/
    either, and they are taken as parameters. *)
Record Keys : Type := {
  LambdaContextIDKey : string;
  LambdaContextMethodKey : string;
  LambdaContextMultiParamsKey : string;
  LambdaContextPathKey : string;
  LambdaContextPathParamsKey : string;
  LambdaContextQueryParamsKey : string;
  LambdaContextRequestIDKey : string;
  LambdaContextUserIDKey : string;
  LambdaContextUserTypeKey : string;
  JWTClaimAudienceKey : string;
  JWTClaimEmailKey : string;
  JWTClaimExpiresAtKey : string;
  JWTClaimFirstNameKey : string;
  JWTClaimFullNameKey : string;
  JWTClaimIDKey : string;
  JWTClaimIssuedAtKey : string;
  JWTClaimIssuerKey : string;
  JWTClaimLevelKey : string;
  JWTClaimNotBeforeKey : string;
  JWTClaimSubjectKey : string;
  JWTClaimUserTypeKey : string
}.

Record LambdaParams : Type := {
  IDPath : string;
  IDQuery : string;
  UserIDBody : string;
  UserIDPath : string;
  UserIDQuery : string;
  UserTypeBody : string;
  UserTypePath : string;
  UserTypeQuery : string
}.

(** The loop of chooseLongest: [currentIndex] is the index of the head of
    [s1]; the result is the final (longestIndex, longestLength). *)
Fixpoint chooseLongest_loop (s1 : list string)
    (currentIndex longestIndex longestLength : Z) : Z * Z :=
  match s1 with
  | [] => (longestIndex, longestLength)
  | currentString :: rest =>
      let currentLength := Z.of_nat (String.length currentString) in
      if currentLength >? longestLength
      then chooseLongest_loop rest (currentIndex + 1) currentIndex currentLength
      else chooseLongest_loop rest (currentIndex + 1) longestIndex longestLength
  end.

(** s1[i] of Go: [None] stands for the run-time panic of an index out of
    range. *)
Definition index (s1 : list string) (i : Z) : option string :=
  if i <? 0 then None else s1 !! Z.to_nat i.

(** chooseLongest, with [None] for a panic (shown below never to occur). *)
Definition chooseLongest_checked (s1 : list string) : option string :=
  if Z.of_nat (length s1) <? 1 then Some ""
  else
    let '(longestIndex, _) := chooseLongest_loop s1 0 (-1) (-1) in
    index s1 longestIndex.

Definition chooseLongest (s1 : list string) : string :=
  default "" (chooseLongest_checked s1).

Definition GetID (lp : LambdaParams) : string :=
  chooseLongest [IDPath lp; IDQuery lp].

Definition GetUserID (lp : LambdaParams) : string :=
  chooseLongest [UserIDPath lp; UserIDQuery lp; UserIDBody lp].

Definition GetOwnerID (lp : LambdaParams) : string :=
  chooseLongest [GetID lp; GetUserID lp].

Definition GetUserType (lp : LambdaParams) : string :=
  chooseLongest [UserTypePath lp; UserTypeQuery lp; UserTypeBody lp].

End Lcom.

(** ** The request context, the log and the process-wide state *)

Module Runtime.

(** A dynamically typed value (Go's [any]) as the middleware stores it in
    the request context: the untyped nil, a string, an int64, or one of
    the two map types of the gateway event. A nil map of either type is a
    typed value, different from [Nil], and is modelled by the empty map. *)
Inductive any : Type :=
| Nil
| Str (s : string)
| Int64 (z : Z)
| MapOfString (m : gmap string string)
| MapOfStrings (m : gmap string (list string)).

(** context.Context with string keys: WithValue shadows an earlier value
    of the same key, Value returns nil for a key never set. The context is
    never the nil interface (package context forbids passing it). *)
Abbreviation Context := (gmap string any).
Definition WithValue (ctx : Context) (key : string) (val : any) : Context :=
  <[key := val]> ctx.
Definition Value (ctx : Context) (key : string) : any :=
  default Nil (ctx !! key).

(** The structured log (zerolog). An event is kept as the data handed to
    the logger, not as the line the sink prints. *)
Inductive Level : Type := DebugLevel | InfoLevel | ErrorLevel.

Inductive Field : Type :=
| Interface (key : string) (val : any)
| RawJSON (key : string) (bytes : string)
| MarshalledResponse (key : string) (res : Events.APIGatewayProxyResponse)
    (* RawJSON(key, b) where b is json.Marshal of the response *)
| Int (key : string) (z : Z).

Inductive LogEvent : Type :=
| Event (level : Level) (fields : list Field) (msg : string)
| Printf (format level method path : string) (code : Z) (extra : string).

(** What a request can read or change outside its arguments: the process
    environment, the flag lres.ExposeServerErrors, and the log. *)
Record World : Type := {
  environ : gmap string string;
  ExposeServerErrors : bool;
  logged : list LogEvent
}.

(** os.Getenv: the empty string for a variable that is not set. *)
Definition Getenv (w : World) (key : string) : string :=
  default "" (environ w !! key).

Definition emit (e : LogEvent) (w : World) : World :=
  {| environ := environ w;
     ExposeServerErrors := ExposeServerErrors w;
     logged := (logged w ++ [e])%list |}.

End Runtime.

(** ** Package lres: the response builder *)

Module Lres.
Import Events Runtime.

(** HTTPError, with the JSON names of its fields: status and message. *)
Record HTTPError : Type := {
  Status : Z;
  Message : string
}.

(** The error values the builder can be handed: a plain error with its
    text (errors.New), an HTTPError, or an error that wraps another one
    (its own text, and the error Unwrap returns). *)
Inductive error : Type :=
| errors_New (text : string)
| HTTPError_error (e : HTTPError)
| Wrapped (text : string) (inner : error).

(** err.Error(); for an HTTPError it is Sprintf("error %d: %s", ...). *)
Definition Error_text (err : error) : string :=
  match err with
  | errors_New text => text
  | HTTPError_error e => "error " +:+ Go.Itoa (Status e) +:+ ": " +:+ Message e
  | Wrapped text _ => text
  end.

(** errors.As(err, &httpErr): the first HTTPError on the Unwrap chain. *)
Fixpoint errors_As (err : error) : option HTTPError :=
  match err with
  | errors_New _ => None
  | HTTPError_error e => Some e
  | Wrapped _ inner => errors_As inner
  end.

(** An HTTPError as json.Marshal sees it. *)
Definition HTTPError_data (e : HTTPError) : Go.data :=
  Go.JStruct [("status", Go.JInt (Status e)); ("message", Go.JString (Message e))].

(** The literal body Custom falls back to. *)
Definition marshal_failure_body : string :=
  "{" +:+ Go.quoted "code" +:+ ":500," +:+ Go.quoted "message" +:+ ":"
      +:+ Go.quoted "the server has encountered an unexpected error" +:+ "}".

Definition addCors (w : World) (headers : gmap string string) : gmap string string :=
  let corsHeaders := Getenv w Lcom.CORSHeadersEnvKey in
  let corsMethods := Getenv w Lcom.CORSMethodsEnvKey in
  let corsOrigins := Getenv w Lcom.CORSOriginEnvKey in
  let headers :=
    if negb (String.eqb corsHeaders "")
    then <[Lcom.CORSHeadersHeaderKey := corsHeaders]> headers else headers in
  let headers :=
    if negb (String.eqb corsMethods "")
    then <[Lcom.CORSMethodsHeaderKey := corsMethods]> headers else headers in
  let headers :=
    if negb (String.eqb corsOrigins "")
    then <[Lcom.CORSOriginHeaderKey := corsOrigins]> headers else headers in
  headers.

(** Custom. [headers] is [None] for a nil map. The Go code writes the
    content type and the CORS headers into the caller's map and returns
    that map; the model returns the updated map as the headers of the
    response. The returned error is always nil. *)
Definition Custom (w : World) (httpStatus : Z)
    (headers : option (gmap string string)) (data : Go.data)
    : APIGatewayProxyResponse * option error :=
  let '(httpStatus, b) :=
    match Go.Marshal data with
    | Some b => (httpStatus, b)
    | None => (Go.StatusInternalServerError, marshal_failure_body)
    end in
  let headers := match headers with None => ∅ | Some h => h end in
  let headers := <[Lcom.ContentTypeKey := "application/json; charset=UTF-8"]> headers in
  ({| StatusCode := httpStatus;
      ResIsBase64Encoded := false;
      ResHeaders := addCors w headers;
      ResMultiValueHeaders := ∅;
      ResBody := b |}, None).

(** Empty: the data is the empty struct. *)
Definition Empty (w : World) : APIGatewayProxyResponse * option error :=
  Custom w Go.StatusOK None (Go.JStruct []).

Definition Error (w : World) (err : error) : APIGatewayProxyResponse * option error :=
  let httpErr :=
    match errors_As err with
    | Some e => e
    | None => {| Status := Go.StatusInternalServerError; Message := Error_text err |}
    end in
  let httpErr :=
    if (Status httpErr >=? 500) && negb (ExposeServerErrors w)
    then {| Status := Status httpErr; Message := Go.StatusText (Status httpErr) |}
    else httpErr in
  Custom w (Status httpErr) None (HTTPError_data httpErr).

Definition File (w : World) (contentType : string)
    (headers : option (gmap string string)) (fileBytes : string)
    : APIGatewayProxyResponse * option error :=
  let headers :=
    match headers with
    | None => {[Lcom.ContentTypeKey := contentType]}
    | Some h => <[Lcom.ContentTypeKey := contentType]> h
    end in
  ({| StatusCode := Go.StatusOK;
      ResHeaders := addCors w headers;
      ResMultiValueHeaders := ∅;
      ResBody := fileBytes;
      ResIsBase64Encoded := false |}, None).

Definition FileB64 (w : World) (contentType : string)
    (headers : option (gmap string string)) (fileBytes : string)
    : APIGatewayProxyResponse * option error :=
  let headers :=
    match headers with
    | None => {[Lcom.ContentTypeKey := contentType]}
    | Some h => <[Lcom.ContentTypeKey := contentType]> h
    end in
  ({| StatusCode := Go.StatusOK;
      ResHeaders := addCors w headers;
      ResMultiValueHeaders := ∅;
      ResBody := Go.EncodeToString fileBytes;
      ResIsBase64Encoded := true |}, None).

Definition StatusAndError (w : World) (httpStatus : Z) (err : error)
    : APIGatewayProxyResponse * option error :=
  let httpErr := {| Status := httpStatus; Message := Error_text err |} in
  (* If we're not exposing server errors then return a general message *)
  let httpErr :=
    if (Status httpErr >=? 500) && negb (ExposeServerErrors w)
    then {| Status := Status httpErr; Message := Go.StatusText (Status httpErr) |}
    else httpErr in
  Custom w (Status httpErr) None (HTTPError_data httpErr).

Definition Success (w : World) (data : Go.data)
    : APIGatewayProxyResponse * option error :=
  Custom w Go.StatusOK None data.

(** Modelled from the spec: the middleware calls lres.ErrorRes,
    lres.StatusAndErrorRes and lres.EmptyRes, which the lres source under
    src/ does not declare; it declares Error, StatusAndError and Empty.
    The spec has one builder for an error (buildError) and one empty
    response, so each call is taken to be the function without the
    suffix. *)
Definition ErrorRes := Error.
Definition StatusAndErrorRes := StatusAndError.
Definition EmptyRes := Empty.

(** The error body wire format of the spec, section 6:
    {"status": <int>, "message": <string>}, as encoding/json writes the
    two fields of an HTTPError. *)
Definition error_wire_format (status : Z) (message : string) : string :=
  "{" +:+ Go.quoted "status" +:+ ":" +:+ Go.Itoa status +:+ ","
      +:+ Go.quoted "message" +:+ ":" +:+ Go.json_string message +:+ "}".

(** The message the spec promises for an error of status [status] and
    original message [original] (sections 4.5 and 8). *)
Definition message_shown (exposeServerErrors : bool) (status : Z)
    (original : string) : string :=
  if (500 <=? status) && negb exposeServerErrors
  then Go.StatusText status else original.

End Lres.

(** ** Package lambda_router: the transport adapter *)

Module LambdaRouter.
Import Events.

Definition convertMap (input : gmap string (list string)) : gmap string string :=
  map_fold
    (fun key value singleValue =>
       if Z.of_nat (length value) =? 1
       then match value with
            | v0 :: _ => <[key := v0]> singleValue
            | [] => singleValue
            end
       else singleValue)
    ∅ input.

(** What ServeHTTP reads of the *http.Request: the method, the header,
    the path and the parsed query of the URL. *)
Record Request : Type := {
  Method : string;
  Header : gmap string (list string);
  URL_Path : string;
  URL_Query : gmap string (list string)
}.

(** http.Header.Get for a key in canonical form: the first value under
    the key, or the empty string. *)
Definition Header_Get (h : gmap string (list string)) (key : string) : string :=
  match h !! key with
  | Some (v :: _) => v
  | _ => ""
  end.

(** The event ServeHTTP hands to the handler, once the body of the
    request has been read as [body]. *)
Definition ServeHTTP_event (r : Request) (body : string) : APIGatewayProxyRequest :=
  let singleValueHeaders := convertMap (Header r) in
  let singleValueQuery := convertMap (URL_Query r) in
  let multipart :=
    Go.HasPrefix (Header_Get (Header r) Lcom.ContentTypeKey)
                 "multipart/form-data; boundary" in
  {| Body := if multipart then Go.EncodeToString body else body;
     HTTPMethod := Method r;
     Headers := singleValueHeaders;
     IsBase64Encoded := multipart;
     MultiValueHeaders := Header r;
     MultiValueQueryStringParameters := URL_Query r;
     Path := URL_Path r;
     PathParameters := ∅;
     QueryStringParameters := singleValueQuery;
     RequestID := "" |}.

End LambdaRouter.

(** ** Package ljwt: the claims decoder *)

Module Ljwt.
Import Lres.

Record StandardClaims : Type := {
  Audience : string;
  ExpiresAt : Z;
  Id : string;
  IssuedAt : Z;
  Issuer : string;
  NotBefore : Z;
  Subject : string
}.

Record ExpandedClaims : Type := {
  XAudience : string;
  XEmail : string;
  XExpiresAt : Z;
  XFirstName : string;
  XFullName : string;
  XID : string;
  XIssuedAt : Z;
  XIssuer : string;
  XLevel : string;
  XNotBefore : Z;
  XSubject : string;
  XUserType : string
}.

(** The capabilities the decoder relies on and the spec leaves outside:
    the verification of a token (its claims, or a status and an error),
    the two structural decodings of the claims, lcom's error for a missing
    header, and lreq.UnmarshalReq at the target type LambdaParams (the
    target after the call, and the error). None is under src/. *)
Record External : Type := {
  MapClaims : Type;
  nilClaims : MapClaims;
  verifyAndParse : string -> MapClaims + (Z * error);
  ExtractStandard : MapClaims -> StandardClaims + error;
  ExtractCustom : MapClaims -> ExpandedClaims + error;
  ErrNoAuthorizationHeader : error;
  UnmarshalReq :
    Events.APIGatewayProxyRequest -> bool -> Lcom.LambdaParams ->
    Lcom.LambdaParams * option error
}.

Definition StatusBadRequest : Z := 400.

(** Modelled from the spec: ljwt.ExtractJWT is not under src/. Spec 4.2
    and 4.3: the bearer token is extracted from the header map, failing
    with MissingAuthorizationHeader (HTTP 400) if the Authorization header
    is absent or does not start with the scheme prefix; the token is then
    handed to the verification capability, whose failure (401 or 500) is
    returned. The result is the triple (mapClaims, httpStatus, err) of
    the call sites. *)
Definition ExtractJWT (X : External) (headers : gmap string string)
    : MapClaims X * Z * option error :=
  match headers !! "Authorization" with
  | None => (nilClaims X, StatusBadRequest, Some (ErrNoAuthorizationHeader X))
  | Some authorization =>
      if Go.HasPrefix authorization "Bearer " then
        let token := substring 7 (String.length authorization - 7) authorization in
        match verifyAndParse X token with
        | inl mapClaims => (mapClaims, Go.StatusOK, None)
        | inr (httpStatus, err) => (nilClaims X, httpStatus, Some err)
        end
      else (nilClaims X, StatusBadRequest, Some (ErrNoAuthorizationHeader X))
  end.

End Ljwt.

(** ** Package lmw: the middleware

    A handler (lcom.Handler) takes the request context and the event and
    returns a response and an error; it runs in a world it may read and
    change. Two sources of package lmw are under src/: src/lmw/lmw.go
    (module [Lmw]) and the second file of src/unnamed/part_000 (module
    [Lmw000]). AllowOptionsMW, DecodeStandardMW and DecodeExpandedMW are the
    same text in both; LogRequestMW and InjectLambdaContextMW differ. *)

Module Pipeline.
Import Events Runtime Lres.

Definition Handler : Type :=
  Context -> APIGatewayProxyRequest -> World ->
  (APIGatewayProxyResponse * option error) * World.

(** A call of a response builder from a handler: the builder reads the
    world and leaves it as it is. *)
Definition built (w : World) (r : APIGatewayProxyResponse * option error)
    : (APIGatewayProxyResponse * option error) * World := (r, w).

Definition zeroLambdaParams : Lcom.LambdaParams :=
  {| Lcom.IDPath := ""; Lcom.IDQuery := ""; Lcom.UserIDBody := "";
     Lcom.UserIDPath := ""; Lcom.UserIDQuery := ""; Lcom.UserTypeBody := "";
     Lcom.UserTypePath := ""; Lcom.UserTypeQuery := "" |}.

End Pipeline.

(** *** src/lmw/lmw.go *)

Module Lmw.
Import Events Runtime Lres Lcom Ljwt Pipeline.

Section Middleware.
Variable K : Keys.
Variable X : External.

Definition LogRequestMW (next : Handler) : Handler :=
  fun ctx req w =>
    let format := "[%s] [%s %s] [%d]%s" in
    let '((res, err), w) := next ctx req w in
    let '(level, code, extra) :=
      match err with
      | Some e => ("ERR", Go.StatusInternalServerError, " " +:+ Error_text e)
      | None =>
          let code := StatusCode res in
          (if code >=? 400 then "ERR" else "INF", code, "")
      end in
    let w :=
      if code >? 399 then
        emit (Event ErrorLevel
                [Interface (LambdaContextIDKey K) (Value ctx (LambdaContextIDKey K));
                 Interface (LambdaContextMethodKey K) (Value ctx (LambdaContextMethodKey K));
                 Interface (LambdaContextMultiParamsKey K) (Value ctx (LambdaContextMultiParamsKey K));
                 Interface (LambdaContextPathKey K) (Value ctx (LambdaContextPathKey K));
                 Interface (LambdaContextPathParamsKey K) (Value ctx (LambdaContextPathParamsKey K));
                 Interface (LambdaContextQueryParamsKey K) (Value ctx (LambdaContextQueryParamsKey K));
                 Interface (LambdaContextRequestIDKey K) (Value ctx (LambdaContextRequestIDKey K));
                 Interface (LambdaContextUserIDKey K) (Value ctx (LambdaContextUserIDKey K));
                 Interface (LambdaContextUserTypeKey K) (Value ctx (LambdaContextUserTypeKey K));
                 MarshalledResponse "res" res]
                "error encountered") w
      else w in
    let w := emit (Printf format level (HTTPMethod req) (Path req) code extra) w in
    ((res, err), w).

Definition InjectLambdaContextMW (next : Handler) : Handler :=
  fun ctx req w =>
    let '(lambdaParams, err) := UnmarshalReq X req true zeroLambdaParams in
    match err with
    | Some e => built w (ErrorRes w e)
    | None =>
        let ctx := WithValue ctx (LambdaContextIDKey K) (Str (GetID lambdaParams)) in
        let ctx := WithValue ctx (LambdaContextMethodKey K) (Str (HTTPMethod req)) in
        let ctx := WithValue ctx (LambdaContextMultiParamsKey K)
                     (MapOfStrings (MultiValueQueryStringParameters req)) in
        let ctx := WithValue ctx (LambdaContextPathKey K) (Str (Path req)) in
        let ctx := WithValue ctx (LambdaContextPathParamsKey K)
                     (MapOfString (PathParameters req)) in
        let ctx := WithValue ctx (LambdaContextQueryParamsKey K)
                     (MapOfString (QueryStringParameters req)) in
        let ctx := WithValue ctx (LambdaContextRequestIDKey K) (Str (RequestID req)) in
        let ctx := WithValue ctx (LambdaContextUserIDKey K) (Str (GetUserID lambdaParams)) in
        let ctx := WithValue ctx (LambdaContextUserTypeKey K) (Str (GetUserType lambdaParams)) in
        next ctx req w
    end.

Definition AllowOptionsMW : Handler :=
  fun ctx req w => built w (EmptyRes w).

Definition DecodeStandardMW (next : Handler) : Handler :=
  fun ctx req w =>
    let '(mapClaims, httpStatus, err) := ExtractJWT X (Headers req) in
    match err with
    | Some e => built w (StatusAndErrorRes w httpStatus e)
    | None =>
        match ExtractStandard X mapClaims with
        | inr e => built w (StatusAndErrorRes w Go.StatusInternalServerError e)
        | inl standardClaims =>
            let ctx := WithValue ctx (JWTClaimAudienceKey K) (Str (Audience standardClaims)) in
            let ctx := WithValue ctx (JWTClaimExpiresAtKey K) (Int64 (ExpiresAt standardClaims)) in
            let ctx := WithValue ctx (JWTClaimIDKey K) (Str (Id standardClaims)) in
            let ctx := WithValue ctx (JWTClaimIssuedAtKey K) (Int64 (IssuedAt standardClaims)) in
            let ctx := WithValue ctx (JWTClaimIssuerKey K) (Str (Issuer standardClaims)) in
            let ctx := WithValue ctx (JWTClaimNotBeforeKey K) (Int64 (NotBefore standardClaims)) in
            let ctx := WithValue ctx (JWTClaimSubjectKey K) (Str (Subject standardClaims)) in
            next ctx req w
        end
    end.

Definition DecodeExpandedMW (next : Handler) : Handler :=
  fun ctx req w =>
    let '(mapClaims, httpStatus, err) := ExtractJWT X (Headers req) in
    match err with
    | Some e => built w (StatusAndErrorRes w httpStatus e)
    | None =>
        match ExtractCustom X mapClaims with
        | inr e => built w (StatusAndErrorRes w Go.StatusInternalServerError e)
        | inl extendedClaims =>
            let ctx := WithValue ctx (JWTClaimAudienceKey K) (Str (XAudience extendedClaims)) in
            let ctx := WithValue ctx (JWTClaimEmailKey K) (Str (XEmail extendedClaims)) in
            let ctx := WithValue ctx (JWTClaimExpiresAtKey K) (Int64 (XExpiresAt extendedClaims)) in
            let ctx := WithValue ctx (JWTClaimFirstNameKey K) (Str (XFirstName extendedClaims)) in
            let ctx := WithValue ctx (JWTClaimFullNameKey K) (Str (XFullName extendedClaims)) in
            let ctx := WithValue ctx (JWTClaimIDKey K) (Str (XID extendedClaims)) in
            let ctx := WithValue ctx (JWTClaimIssuedAtKey K) (Int64 (XIssuedAt extendedClaims)) in
            let ctx := WithValue ctx (JWTClaimIssuerKey K) (Str (XIssuer extendedClaims)) in
            let ctx := WithValue ctx (JWTClaimLevelKey K) (Str (XLevel extendedClaims)) in
            let ctx := WithValue ctx (JWTClaimNotBeforeKey K) (Int64 (XNotBefore extendedClaims)) in
            let ctx := WithValue ctx (JWTClaimSubjectKey K) (Str (XSubject extendedClaims)) in
            let ctx := WithValue ctx (JWTClaimUserTypeKey K) (Str (XUserType extendedClaims)) in
            next ctx req w
        end
    end.

End Middleware.
End Lmw.

(** *** The package lmw of src/unnamed/part_000 *)

Module Lmw000.
Import Events Runtime Lres Lcom Ljwt Pipeline.

Section Middleware.
Variable K : Keys.
Variable X : External.

Definition logContextValues (ctx : Context) (res : APIGatewayProxyResponse)
    (ctxVals : list string) (w : World) : World :=
  let '(level, fields) :=
    if StatusCode res >? 399 then
      match Go.Marshal (Go.JString (ResBody res)) with
      | Some body => (ErrorLevel, [RawJSON "body" body])
      | None => (ErrorLevel, [])
      end
    else (InfoLevel, []) in
  let fields :=
    fold_left
      (fun fields currentKey =>
         match Value ctx currentKey with
         | Nil => fields
         | val => (fields ++ [Interface currentKey val])%list
         end)
      ctxVals fields in
  let fields := (fields ++ [Int "statusCode" (StatusCode res)])%list in
  emit (Event level fields "request finished") w.

Definition LogRequestMW (next : Handler) : Handler :=
  fun ctx req w =>
    let '((res, err), w) := next ctx req w in
    let res :=
      match err with
      | Some _ => with_StatusCode Go.StatusInternalServerError res
      | None => res
      end in
    let ctxVals :=
      [LambdaContextIDKey K; LambdaContextMethodKey K;
       LambdaContextMultiParamsKey K; LambdaContextPathKey K;
       LambdaContextPathParamsKey K; LambdaContextQueryParamsKey K;
       LambdaContextRequestIDKey K; LambdaContextUserIDKey K;
       LambdaContextUserTypeKey K] in
    let w := logContextValues ctx res ctxVals w in
    ((res, err), w).

(** The loop ranges over a map: the order is unspecified in Go, and the
    keys are distinct, so the resulting context has the same lookups in
    any order. *)
Definition addToContext (ctx : Context) (vals : gmap string any) : Context :=
  map_fold
    (fun key val ctx =>
       match val with
       | Nil => ctx
       | Str strVal =>
           if negb (String.eqb strVal "") then WithValue ctx key val else ctx
       | _ => WithValue ctx key val
       end)
    ctx vals.

(** The map literal of InjectLambdaContextMW. *)
Definition contextVals (lambdaParams : LambdaParams)
    (req : APIGatewayProxyRequest) : gmap string any :=
  list_to_map
    [(LambdaContextIDKey K, Str (GetID lambdaParams));
     (LambdaContextMethodKey K, Str (HTTPMethod req));
     (LambdaContextMultiParamsKey K, MapOfStrings (MultiValueQueryStringParameters req));
     (LambdaContextPathKey K, Str (Path req));
     (LambdaContextPathParamsKey K, MapOfString (PathParameters req));
     (LambdaContextQueryParamsKey K, MapOfString (QueryStringParameters req));
     (LambdaContextRequestIDKey K, Str (RequestID req));
     (LambdaContextUserIDKey K, Str (GetUserID lambdaParams));
     (LambdaContextUserTypeKey K, Str (GetUserType lambdaParams))].

Definition InjectLambdaContextMW (next : Handler) : Handler :=
  fun ctx req w =>
    (* we ignore the error in case the requests is empty or malformed *)
    let '(lambdaParams, _) := UnmarshalReq X req true zeroLambdaParams in
    let vals := contextVals lambdaParams req in
    let ctx := addToContext ctx vals in
    next ctx req w.

Definition AllowOptionsMW : Handler := Lmw.AllowOptionsMW.
Definition DecodeStandardMW : Handler -> Handler := Lmw.DecodeStandardMW K X.
Definition DecodeExpandedMW : Handler -> Handler := Lmw.DecodeExpandedMW K X.

End Middleware.
End Lmw000.

(** ** Instances used in the examples *)

Module Sample.
Import Events Runtime Lres.

(** The three keys the tests of package lmw show in the log (pathParams,
    queryParams, multiParams), and names for the others. *)
Definition keys : Lcom.Keys :=
  {| Lcom.LambdaContextIDKey := "id";
     Lcom.LambdaContextMethodKey := "method";
     Lcom.LambdaContextMultiParamsKey := "multiParams";
     Lcom.LambdaContextPathKey := "path";
     Lcom.LambdaContextPathParamsKey := "pathParams";
     Lcom.LambdaContextQueryParamsKey := "queryParams";
     Lcom.LambdaContextRequestIDKey := "requestId";
     Lcom.LambdaContextUserIDKey := "userId";
     Lcom.LambdaContextUserTypeKey := "userType";
     Lcom.JWTClaimAudienceKey := "aud";
     Lcom.JWTClaimEmailKey := "email";
     Lcom.JWTClaimExpiresAtKey := "exp";
     Lcom.JWTClaimFirstNameKey := "firstName";
     Lcom.JWTClaimFullNameKey := "fullName";
     Lcom.JWTClaimIDKey := "jti";
     Lcom.JWTClaimIssuedAtKey := "iat";
     Lcom.JWTClaimIssuerKey := "iss";
     Lcom.JWTClaimLevelKey := "level";
     Lcom.JWTClaimNotBeforeKey := "nbf";
     Lcom.JWTClaimSubjectKey := "sub";
     Lcom.JWTClaimUserTypeKey := "userType" |}.

Definition lookup_or_empty (m : gmap string string) (k : string) : string :=
  default "" (m !! k).

(** An unmarshaller that fills the path and query fields of the target
    and rejects a body that is asked for, is not empty and does not open
    a JSON object. *)
Definition unmarshalReq (req : APIGatewayProxyRequest) (body : bool)
    (lp : Lcom.LambdaParams) : Lcom.LambdaParams * option error :=
  let lp' :=
    {| Lcom.IDPath := lookup_or_empty (PathParameters req) "id";
       Lcom.IDQuery := lookup_or_empty (QueryStringParameters req) "id";
       Lcom.UserIDBody := Lcom.UserIDBody lp;
       Lcom.UserIDPath := lookup_or_empty (PathParameters req) "userId";
       Lcom.UserIDQuery := lookup_or_empty (QueryStringParameters req) "userId";
       Lcom.UserTypeBody := Lcom.UserTypeBody lp;
       Lcom.UserTypePath := lookup_or_empty (PathParameters req) "userType";
       Lcom.UserTypeQuery := lookup_or_empty (QueryStringParameters req) "userType" |} in
  if body && negb (String.eqb (Body req) "") && negb (Go.HasPrefix (Body req) "{")
  then (lp', Some (errors_New "invalid character looking for beginning of value"))
  else (lp', None).

Definition external : Ljwt.External :=
  {| Ljwt.MapClaims := gmap string any;
     Ljwt.nilClaims := ∅;
     Ljwt.verifyAndParse := fun _ => inr (401, errors_New "token is malformed");
     Ljwt.ExtractStandard := fun _ => inr (errors_New "claims do not match");
     Ljwt.ExtractCustom := fun _ => inr (errors_New "claims do not match");
     Ljwt.ErrNoAuthorizationHeader := errors_New "no Authorization header value set";
     Ljwt.UnmarshalReq := unmarshalReq |}.

Definition world : World :=
  {| environ := ∅; ExposeServerErrors := true; logged := [] |}.

(** The environment of the tests of package lres: the three CORS variables
    set to a star, and server errors hidden. *)
Definition world_cors : World :=
  {| environ := {[ Lcom.CORSHeadersEnvKey := "*";
                   Lcom.CORSMethodsEnvKey := "*";
                   Lcom.CORSOriginEnvKey := "*" ]};
     ExposeServerErrors := false;
     logged := [] |}.

Definition request (method path body : string) : APIGatewayProxyRequest :=
  {| Body := body; HTTPMethod := method; Headers := ∅;
     IsBase64Encoded := false; MultiValueHeaders := ∅;
     MultiValueQueryStringParameters := ∅; Path := path;
     PathParameters := ∅; QueryStringParameters := ∅;
     RequestID := "req-1" |}.

(** mockHandler of the tests: returns the given response and error. *)
Definition mockHandler (response : APIGatewayProxyResponse) (err : option error)
    : Pipeline.Handler :=
  fun _ _ w => ((response, err), w).

Definition response (code : Z) : APIGatewayProxyResponse :=
  {| StatusCode := code; ResHeaders := ∅; ResMultiValueHeaders := ∅;
     ResBody := ""; ResIsBase64Encoded := false |}.

(** A GET without parameters, and a POST whose body is not JSON. *)
Definition plain_get : APIGatewayProxyRequest := request "GET" "/books" "".
Definition bad_post : APIGatewayProxyRequest := request "POST" "/books" "not json".

(** The context InjectLambdaContextMW of src/unnamed/part_000 builds for
    [plain_get] from the empty context. *)
Definition injected : Context :=
  Lmw000.addToContext ∅
    (Lmw000.contextVals keys (unmarshalReq plain_get true Pipeline.zeroLambdaParams).1
       plain_get).

End Sample.

(** ** Vocabulary of the properties *)

Module Spec.
Import Events Runtime Lcom.
Local Open Scope list_scope.

Definition len (s : string) : Z := Z.of_nat (String.length s).

(** What the loop knows after the prefix [pre] of the arguments: nothing
    is chosen yet and the prefix is empty, or the chosen index holds a
    string of the chosen length, no string of the prefix is longer, and
    every earlier one is strictly shorter. *)
Definition chosen (pre : list string) (longestIndex longestLength : Z) : Prop :=
  (pre = [] /\ longestIndex = -1 /\ longestLength = -1) \/
  (exists s, 0 <= longestIndex /\ pre !! Z.to_nat longestIndex = Some s /\
     longestLength = len s /\
     (forall j t, pre !! j = Some t -> len t <= longestLength) /\
     (forall j t, (j < Z.to_nat longestIndex)%nat -> pre !! j = Some t ->
                  len t < longestLength)).

Definition params (path query body : string) : LambdaParams :=
  {| IDPath := ""; IDQuery := ""; UserIDBody := body; UserIDPath := path;
     UserIDQuery := query; UserTypeBody := ""; UserTypePath := "";
     UserTypeQuery := "" |}.

(** The single value of a list of exactly one element. *)
Definition only (values : list string) : option string :=
  match values with
  | [v] => Some v
  | _ => None
  end.

(** The three CORS settings: the environment variable and the response
    header it sets. *)
Definition cors_pairs : list (string * string) :=
  [(CORSHeadersEnvKey, CORSHeadersHeaderKey);
   (CORSMethodsEnvKey, CORSMethodsHeaderKey);
   (CORSOriginEnvKey, CORSOriginHeaderKey)].

(** CORS injection on a response built from the headers map [given]: a
    setting that is not empty is the value of its header, and an empty one
    leaves the header as [given] has it. *)
Definition cors_applied (w : World) (given : gmap string string)
    (res : APIGatewayProxyResponse) : Prop :=
  Forall
    (fun '(envKey, headerKey) =>
       ResHeaders res !! headerKey =
       if String.eqb (Getenv w envKey) "" then given !! headerKey
       else Some (Getenv w envKey))
    cors_pairs.

Definition generic_message : string :=
  "the server has encountered an unexpected error".

(** An empty or absent value: the untyped nil, the empty string, a map
    without entries. *)
Definition is_empty_value (v : any) : bool :=
  match v with
  | Nil => true
  | Str s => String.eqb s ""
  | Int64 _ => false
  | MapOfString m => bool_decide (m = ∅)
  | MapOfStrings m => bool_decide (m = ∅)
  end.

(** The invariant of the request context as the spec words it (section 3):
    whatever [after] holds and [before] did not is not empty. *)
Definition only_nonempty_added (before after : Context) : Prop :=
  forall key v, after !! key = Some v ->
                before !! key = Some v \/ is_empty_value v = false.

(** The same for strings and the untyped nil alone. *)
Definition only_nonempty_strings_added (before after : Context) : Prop :=
  forall key v, after !! key = Some v ->
                before !! key = Some v \/ (v <> Nil /\ v <> Str "").

End Spec.

(** ** Further vocabulary: the resolver as a recursion on its arguments *)

Module Resolver.

(** Of two candidates the later one wins only when it is strictly longer. *)
Definition pick (earlier later : string) : string :=
  if (String.length earlier <? String.length later)%nat then later else earlier.

(** The first longest candidate, by recursion on the list; the empty
    string when there is none. *)
Fixpoint first_longest (s1 : list string) : string :=
  match s1 with
  | [] => ""
  | s :: rest => pick s (first_longest rest)
  end.

End Resolver.

(** ** More of the Go standard library: base64 decoding and header keys *)

Module GoExtra.

(** The value of a character of the standard base64 alphabet. *)
Definition decodeMap (a : ascii) : option N :=
  let c := N_of_ascii a in
  (if (65 <=? c) && (c <=? 90) then Some (c - 65)
   else if (97 <=? c) && (c <=? 122) then Some (c - 71)
   else if (48 <=? c) && (c <=? 57) then Some (c + 4)
   else if c =? 43 then Some 62
   else if c =? 47 then Some 63
   else None)%N.

Definition is_newline (a : ascii) : bool :=
  ((N_of_ascii a =? 10) || (N_of_ascii a =? 13))%N.

Definition is_padding (a : ascii) : bool := (N_of_ascii a =? 61)%N.

Fixpoint skip_newlines (s : string) : string :=
  match s with
  | String a rest => if is_newline a then skip_newlines rest else s
  | EmptyString => EmptyString
  end.

Definition byte (n : N) : ascii := ascii_of_N (n mod 256).

(** base64.StdEncoding.DecodeString: the decoded bytes, or [None] when it
    returns an error. [quantum] holds the values of the characters read
    since the last complete group of four. Newlines and carriage returns
    are skipped; padding is accepted only to complete the last group, and
    only newlines may follow it; the bits of the last group that do not fill
    a byte are dropped (the encoding is not strict). *)
Fixpoint decode (s : string) (quantum : list N) : option string :=
  match s with
  | EmptyString =>
      match quantum with
      | [] => Some EmptyString
      | _ => None
      end
  | String a rest =>
      match decodeMap a with
      | Some v =>
          match quantum with
          | [v0; v1; v2] =>
              let val := (v0 * 262144 + v1 * 4096 + v2 * 64 + v)%N in
              match decode rest [] with
              | Some out =>
                  Some (String (byte (val / 65536))
                          (String (byte (val / 256)) (String (byte val) out)))
              | None => None
              end
          | _ => decode rest (quantum ++ [v])
          end
      | None =>
          if is_newline a then decode rest quantum
          else if is_padding a then
            match quantum with
            | [v0; v1] =>
                match skip_newlines rest with
                | String p rest' =>
                    if is_padding p then
                      match skip_newlines rest' with
                      | EmptyString =>
                          Some (String (byte (v0 * 4 + v1 / 16)) EmptyString)
                      | _ => None
                      end
                    else None
                | EmptyString => None
                end
            | [v0; v1; v2] =>
                match skip_newlines rest with
                | EmptyString =>
                    Some (String (byte (v0 * 4 + v1 / 16))
                            (String (byte ((v1 mod 16) * 16 + v2 / 4)) EmptyString))
                | _ => None
                end
            | _ => None
            end
          else None
      end
  end%N.

Definition DecodeString (s : string) : option string := decode s [].

(** textproto's validHeaderFieldByte: the token characters of RFC 7230. *)
Definition validHeaderFieldByte (a : ascii) : bool :=
  let c := N_of_ascii a in
  (((48 <=? c) && (c <=? 57)) || ((65 <=? c) && (c <=? 90))
   || ((97 <=? c) && (c <=? 122))
   || (c =? 33) || (c =? 35) || (c =? 36) || (c =? 37) || (c =? 38)
   || (c =? 39) || (c =? 42) || (c =? 43) || (c =? 45) || (c =? 46)
   || (c =? 94) || (c =? 95) || (c =? 96) || (c =? 124) || (c =? 126))%N.

Fixpoint all_valid (s : string) : bool :=
  match s with
  | EmptyString => true
  | String a rest => validHeaderFieldByte a && all_valid rest
  end.

(** The canonical case: a letter is upper case at the start and after a
    dash, lower case elsewhere. *)
Fixpoint canonical_case (upper : bool) (s : string) : string :=
  match s with
  | EmptyString => EmptyString
  | String a rest =>
      let c := N_of_ascii a in
      let c' :=
        (if upper && (97 <=? c) && (c <=? 122) then c - 32
         else if negb upper && (65 <=? c) && (c <=? 90) then c + 32
         else c)%N in
      String (ascii_of_N c') (canonical_case (c' =? 45)%N rest)
  end.

(** textproto.CanonicalMIMEHeaderKey: a key with a byte that is not a
    token character is returned as it is. *)
Definition CanonicalMIMEHeaderKey (s : string) : string :=
  if all_valid s then canonical_case true s else s.

(** http.Header: Set, Add and Get, on the canonical form of the key. *)
Definition Header_Set (h : gmap string (list string)) (key value : string)
    : gmap string (list string) :=
  <[CanonicalMIMEHeaderKey key := [value]]> h.

Definition Header_Add (h : gmap string (list string)) (key value : string)
    : gmap string (list string) :=
  <[CanonicalMIMEHeaderKey key :=
      (default [] (h !! CanonicalMIMEHeaderKey key) ++ [value])%list]> h.

Definition Header_Get (h : gmap string (list string)) (key : string) : string :=
  match h !! CanonicalMIMEHeaderKey key with
  | Some (v :: _) => v
  | _ => ""
  end.

End GoExtra.

(** ** The loops over Go maps, run in a given order

    Go ranges over a map in an order it does not specify. The functions
    below run the body of such a loop over the entries in the order of a
    list, so that what depends on the order can be told from what does
    not. *)

Module InOrder.
Import Events Runtime.

(** The loop of convertMap. *)
Definition convertMap_over (entries : list (string * list string))
    : gmap string string :=
  fold_left
    (fun singleValue '(key, value) =>
       if Z.of_nat (length value) =? 1
       then match value with
            | v0 :: _ => <[key := v0]> singleValue
            | [] => singleValue
            end
       else singleValue)
    entries ∅.

(** The loop of addToContext. *)
Definition addToContext_over (ctx : Context) (entries : list (string * any))
    : Context :=
  fold_left
    (fun ctx '(key, val) =>
       match val with
       | Nil => ctx
       | Str strVal =>
           if negb (String.eqb strVal "") then WithValue ctx key val else ctx
       | _ => WithValue ctx key val
       end)
    entries ctx.

(** The orders in which a run ranges over the two header maps of a
    response, and what makes them orders of the map: each lists the entries
    of the map, once each. *)
Record MapOrder : Type := {
  range_multi : gmap string (list string) -> list (string * list string);
  range_single : gmap string string -> list (string * string)
}.

Definition fair (o : MapOrder) : Prop :=
  (forall m, range_multi o m ≡ₚ map_to_list m) /\
  (forall m, range_single o m ≡ₚ map_to_list m).

Definition stdpp_order : MapOrder :=
  {| range_multi := map_to_list; range_single := map_to_list |}.

End InOrder.

(** ** The transport adapter, whole *)

Module Adapter.
Import Events Runtime Lres LambdaRouter GoExtra InOrder.

(** The http.ResponseWriter as far as ServeHTTP uses it: its header map,
    the status code WriteHeader has sent (if it was called), the bytes
    written, and the error its Write returns when it is a writer whose
    writes fail. *)
Record ResponseWriter : Type := {
  header : gmap string (list string);
  code : option Z;
  written : string;
  writeError : option string
}.

Definition with_header (h : gmap string (list string)) (rw : ResponseWriter) :=
  {| header := h; code := code rw; written := written rw;
     writeError := writeError rw |}.

(** WriteHeader: the first call fixes the status code. *)
Definition WriteHeader (rw : ResponseWriter) (statusCode : Z) : ResponseWriter :=
  match code rw with
  | Some _ => rw
  | None => {| header := header rw; code := Some statusCode;
               written := written rw; writeError := writeError rw |}
  end.

(** Write: the bytes are appended, after an implicit WriteHeader(200) when
    no status was sent; a failing writer writes nothing and returns its
    error. *)
Definition Write (rw : ResponseWriter) (bytes : string)
    : ResponseWriter * option string :=
  match writeError rw with
  | Some e => (rw, Some e)
  | None =>
      let rw := WriteHeader rw Go.StatusOK in
      ({| header := header rw; code := code rw;
          written := written rw +:+ bytes; writeError := writeError rw |}, None)
  end.

Definition newline : string := String (ascii_of_nat 10) EmptyString.

(** What json.NewEncoder(w).Encode writes for the map with the one entry
    error: the JSON object and a newline. *)
Definition error_document (message : string) : string :=
  "{" +:+ Go.json_string "error" +:+ ":" +:+ Go.json_string message +:+ "}"
      +:+ newline.

(** The block the three failure branches of ServeHTTP repeat: the content
    type, status 500, the encoded error; a failed write is logged (with the
    standard logger, whose lines are the second component). *)
Definition fail (rw : ResponseWriter) (message : string)
    : ResponseWriter * list string :=
  let rw := with_header (Header_Set (header rw) Lcom.ContentTypeKey
                           "application/json; charset=UTF-8") rw in
  let rw := WriteHeader rw 500 in
  let '(rw, encodeErr) := Write rw (error_document message) in
  match encodeErr with
  | Some e => (rw, ["encodeErr [" +:+ e +:+ "]"])
  | None => (rw, [])
  end.

(** The CORS headers ServeHTTP sets on the writer before anything else. *)
Definition setCors (world : World) (h : gmap string (list string))
    : gmap string (list string) :=
  let corsHeaders := Getenv world Lcom.CORSHeadersEnvKey in
  let corsMethods := Getenv world Lcom.CORSMethodsEnvKey in
  let corsOrigins := Getenv world Lcom.CORSOriginEnvKey in
  let h :=
    if negb (String.eqb corsHeaders "")
    then Header_Set h Lcom.CORSHeadersHeaderKey corsHeaders else h in
  let h :=
    if negb (String.eqb corsMethods "")
    then Header_Set h Lcom.CORSMethodsHeaderKey corsMethods else h in
  let h :=
    if negb (String.eqb corsOrigins "")
    then Header_Set h Lcom.CORSOriginHeaderKey corsOrigins else h in
  h.

(** The inner loop over the values of one multi-value header: Set for the
    first value, Add for the others. *)
Fixpoint writeValues (h : gmap string (list string)) (header : string)
    (i : nat) (values : list string) : gmap string (list string) :=
  match values with
  | [] => h
  | value :: rest =>
      writeValues
        (if (i =? 0)%nat then Header_Set h header value
         else Header_Add h header value)
        header (S i) rest
  end.

Definition writeMultiValueHeaders (h : gmap string (list string))
    (entries : list (string * list string)) : gmap string (list string) :=
  fold_left (fun h '(header, values) => writeValues h header 0 values) entries h.

Definition writeHeaders (h : gmap string (list string))
    (entries : list (string * string)) : gmap string (list string) :=
  fold_left
    (fun h '(header, value) =>
       if String.eqb (Header_Get h header) "" then Header_Set h header value
       else h)
    entries h.

(** ServeHTTP. [handler] is l.Handler and [ctx] the context of the request;
    [read] is what io.ReadAll(r.Body) returns; [corruptInputText] gives the
    text of the error DecodeString returns for a body it rejects. The result
    is the writer, the lines of the standard logger, and the world. *)
Definition ServeHTTP (o : MapOrder) (corruptInputText : string -> string)
    (handler : Pipeline.Handler) (rw : ResponseWriter) (r : Request)
    (ctx : Context) (read : string + error) (world : World)
    : ResponseWriter * list string * World :=
  let rw := with_header (setCors world (header rw)) rw in
  match read with
  | inr err =>
      (fail rw ("Failed reading req body: " +:+ Error_text err), world)
  | inl body =>
      let event := ServeHTTP_event r body in
      let '((res, err), world) := handler ctx event world in
      match err with
      | Some err =>
          (fail rw ("Failed executing handler: " +:+ Error_text err), world)
      | None =>
          let decoded :=
            if ResIsBase64Encoded res then DecodeString (ResBody res)
            else Some (ResBody res) in
          match decoded with
          | None =>
              (fail rw ("Handler returned invalid base64 data: "
                          +:+ corruptInputText (ResBody res)), world)
          | Some resBody =>
              let h := writeMultiValueHeaders (header rw)
                         (range_multi o (ResMultiValueHeaders res)) in
              let h := writeHeaders h (range_single o (ResHeaders res)) in
              let rw := WriteHeader (with_header h rw) (StatusCode res) in
              let '(rw, writeErr) := Write rw resBody in
              match writeErr with
              | Some e => (rw, ["writeErr [" +:+ e +:+ "]"], world)
              | None => (rw, [], world)
              end
          end
      end
  end.

(** A writer nothing was done to. *)
Definition fresh : ResponseWriter :=
  {| header := ∅; code := None; written := ""; writeError := None |}.

End Adapter.

(** ** Vocabulary for the transport adapter *)

Module AdapterSpec.
Import Events Runtime Lcom Spec GoExtra Adapter.

Definition json_content_type : string := "application/json; charset=UTF-8".

(** The writer [rw] is [rw0] after a failure reported as [message]: status
    500, the JSON content type, the error document appended to what was
    written. *)
Definition is_failure (rw0 rw : ResponseWriter) (message : string) : Prop :=
  code rw = Some 500 /\
  written rw = written rw0 +:+ error_document message /\
  header rw !! ContentTypeKey = Some [json_content_type].

(** Each CORS setting of the environment that is not empty is the one
    value of its header on the writer. *)
Definition cors_on_writer (world : World) (rw : ResponseWriter) : Prop :=
  Forall
    (fun '(envKey, headerKey) =>
       Getenv world envKey <> "" ->
       header rw !! headerKey = Some [Getenv world envKey])
    cors_pairs.

(** A header map holds a value that is not empty first under [key]. *)
Definition is_set (h : gmap string (list string)) (key : string) : Prop :=
  exists v vs, h !! key = Some (v :: vs) /\ v <> "".

(** A handler that answers every request with the given result. *)
Definition answering (result : World -> APIGatewayProxyResponse * option Lres.error)
    : Pipeline.Handler :=
  fun _ _ w => (result w, w).

End AdapterSpec.

(** ** Vocabulary for the middleware *)

Module LmwSpec.
Import Events Runtime Lcom Lres Ljwt.

(** The entries DecodeStandardMW puts into the context, in its order. *)
Definition standard_entries (K : Keys) (c : StandardClaims) : list (string * any) :=
  [(JWTClaimAudienceKey K, Str (Audience c));
   (JWTClaimExpiresAtKey K, Int64 (ExpiresAt c));
   (JWTClaimIDKey K, Str (Id c));
   (JWTClaimIssuedAtKey K, Int64 (IssuedAt c));
   (JWTClaimIssuerKey K, Str (Issuer c));
   (JWTClaimNotBeforeKey K, Int64 (NotBefore c));
   (JWTClaimSubjectKey K, Str (Subject c))].

(** The entries DecodeExpandedMW puts into the context, in its order. *)
Definition expanded_entries (K : Keys) (c : ExpandedClaims) : list (string * any) :=
  [(JWTClaimAudienceKey K, Str (XAudience c));
   (JWTClaimEmailKey K, Str (XEmail c));
   (JWTClaimExpiresAtKey K, Int64 (XExpiresAt c));
   (JWTClaimFirstNameKey K, Str (XFirstName c));
   (JWTClaimFullNameKey K, Str (XFullName c));
   (JWTClaimIDKey K, Str (XID c));
   (JWTClaimIssuedAtKey K, Int64 (XIssuedAt c));
   (JWTClaimIssuerKey K, Str (XIssuer c));
   (JWTClaimLevelKey K, Str (XLevel c));
   (JWTClaimNotBeforeKey K, Int64 (XNotBefore c));
   (JWTClaimSubjectKey K, Str (XSubject c));
   (JWTClaimUserTypeKey K, Str (XUserType c))].

(** The entries InjectLambdaContextMW derives from the request, in the
    order both sources list them. *)
Definition lambda_entries (K : Keys) (lp : LambdaParams)
    (req : APIGatewayProxyRequest) : list (string * any) :=
  [(LambdaContextIDKey K, Str (GetID lp));
   (LambdaContextMethodKey K, Str (HTTPMethod req));
   (LambdaContextMultiParamsKey K, MapOfStrings (MultiValueQueryStringParameters req));
   (LambdaContextPathKey K, Str (Path req));
   (LambdaContextPathParamsKey K, MapOfString (PathParameters req));
   (LambdaContextQueryParamsKey K, MapOfString (QueryStringParameters req));
   (LambdaContextRequestIDKey K, Str (RequestID req));
   (LambdaContextUserIDKey K, Str (GetUserID lp));
   (LambdaContextUserTypeKey K, Str (GetUserType lp))].

(** A value addToContext stores: anything but the untyped nil and the
    empty string. *)
Definition kept (v : any) : bool :=
  match v with
  | Nil => false
  | Str s => negb (String.eqb s "")
  | _ => true
  end.

(** The context after the given entries were added one after the other. *)
Definition with_values (ctx : Context) (entries : list (string * any)) : Context :=
  fold_left (fun c '(k, v) => WithValue c k v) entries ctx.

(** The fields logged for the keys of [ctxVals] the context holds. *)
Definition present_fields (ctx : Context) (ctxVals : list string) : list Field :=
  omap (fun key => match Value ctx key with
                   | Nil => None
                   | val => Some (Interface key val)
                   end) ctxVals.

(** The keys LogRequestMW of src/unnamed/part_000 looks up, in its
    order. *)
Definition logged_keys (K : Keys) : list string :=
  [LambdaContextIDKey K; LambdaContextMethodKey K;
   LambdaContextMultiParamsKey K; LambdaContextPathKey K;
   LambdaContextPathParamsKey K; LambdaContextQueryParamsKey K;
   LambdaContextRequestIDKey K; LambdaContextUserIDKey K;
   LambdaContextUserTypeKey K].

End LmwSpec.

(** ** More instances for the examples *)

Module Sample2.
Import Events Runtime Lres.

Definition claims : Ljwt.StandardClaims :=
  {| Ljwt.Audience := "books"; Ljwt.ExpiresAt := 1704500640; Ljwt.Id := "t-1";
     Ljwt.IssuedAt := 1704414240; Ljwt.Issuer := "auth"; Ljwt.NotBefore := 0;
     Ljwt.Subject := "1234567890" |}.

Definition expanded : Ljwt.ExpandedClaims :=
  {| Ljwt.XAudience := "books"; Ljwt.XEmail := "a@example.org";
     Ljwt.XExpiresAt := 1704500640; Ljwt.XFirstName := "John";
     Ljwt.XFullName := "John Doe"; Ljwt.XID := "t-1";
     Ljwt.XIssuedAt := 1704414240; Ljwt.XIssuer := "auth"; Ljwt.XLevel := "1";
     Ljwt.XNotBefore := 0; Ljwt.XSubject := "1234567890";
     Ljwt.XUserType := "admin" |}.

(** A verification that accepts the token good and binds it to the claims
    above, and rejects every other token with status 401. *)
Definition external : Ljwt.External :=
  {| Ljwt.MapClaims := bool;
     Ljwt.nilClaims := false;
     Ljwt.verifyAndParse :=
       fun token => if String.eqb token "good" then inl true
                    else inr (401, errors_New "token is malformed");
     Ljwt.ExtractStandard :=
       fun c => if c then inl claims else inr (errors_New "no claims");
     Ljwt.ExtractCustom :=
       fun c => if c then inl expanded else inr (errors_New "no claims");
     Ljwt.ErrNoAuthorizationHeader := errors_New "no Authorization header value set";
     Ljwt.UnmarshalReq := Sample.unmarshalReq |}.

Definition with_token (token : string) : APIGatewayProxyRequest :=
  {| Body := ""; HTTPMethod := "GET";
     Headers := {[ "Authorization" := "Bearer " +:+ token ]};
     IsBase64Encoded := false; MultiValueHeaders := ∅;
     MultiValueQueryStringParameters := ∅; Path := "/books";
     PathParameters := ∅; QueryStringParameters := ∅;
     RequestID := "req-2" |}.

Definition http_request : LambdaRouter.Request :=
  {| LambdaRouter.Method := "GET"; LambdaRouter.Header := ∅;
     LambdaRouter.URL_Path := "/books"; LambdaRouter.URL_Query := ∅ |}.

Definition corruptInputText (s : string) : string := "illegal base64 data".

Definition broken : Adapter.ResponseWriter :=
  {| Adapter.header := ∅; Adapter.code := None; Adapter.written := "";
     Adapter.writeError := Some "broken pipe" |}.

End Sample2.

(** * Properties *)

(** Splits a conjunction of closed facts and evaluates each of them. *)
Ltac evaluate_each :=
  repeat match goal with |- _ /\ _ => split end;
  try (vm_compute; reflexivity).

(** ** The parameter resolver *)

Module LcomProps.
Import Lcom Spec.
Local Open Scope list_scope.

Lemma chosen_step pre s li ll :
  chosen pre li ll ->
  chosen (pre ++ [s])
    (if len s >? ll then Z.of_nat (length pre) else li)
    (if len s >? ll then len s else ll).
Proof.
  intros Hc. destruct (Z.gtb_spec (len s) ll) as [Hgt|Hle].
  - right. exists s. rewrite Nat2Z.id.
    split; [lia|]. split; [by rewrite list_lookup_middle|].
    split; [done|]. split.
    + intros j t Hj.
      destruct (decide (j < length pre)%nat) as [Hlt|Hge].
      * rewrite lookup_app_l in Hj by done.
        destruct Hc as [(-> & _ & _)|(s0 & _ & _ & _ & Hall & _)].
        -- simpl in Hlt. lia.
        -- specialize (Hall j t Hj). lia.
      * rewrite lookup_app_r in Hj by lia.
        destruct (j - length pre)%nat eqn:E; simpl in Hj; [|by destruct n].
        injection Hj as <-. lia.
    + intros j t Hlt Hj. rewrite lookup_app_l in Hj by done.
      destruct Hc as [(-> & _ & _)|(s0 & _ & _ & _ & Hall & _)].
      * simpl in Hlt. lia.
      * specialize (Hall j t Hj). lia.
  - destruct Hc as [(-> & -> & ->)|(s0 & Hpos & Hli & Hll & Hall & Hfirst)].
    + unfold len in Hle. lia.
    + right. exists s0. split; [done|].
      assert (Z.to_nat li < length pre)%nat by (by eapply lookup_lt_Some).
      split; [by rewrite lookup_app_l|]. split; [done|]. split.
      * intros j t Hj.
        destruct (decide (j < length pre)%nat) as [Hlt|Hge].
        -- rewrite lookup_app_l in Hj by done. by eapply Hall.
        -- rewrite lookup_app_r in Hj by lia.
           destruct (j - length pre)%nat eqn:E; simpl in Hj; [|by destruct n].
           injection Hj as <-. lia.
      * intros j t Hlt Hj. rewrite lookup_app_l in Hj by lia. by eapply Hfirst.
Qed.

Lemma chooseLongest_loop_chosen rest :
  forall pre li ll,
    chosen pre li ll ->
    chosen (pre ++ rest)
      (chooseLongest_loop rest (Z.of_nat (length pre)) li ll).1
      (chooseLongest_loop rest (Z.of_nat (length pre)) li ll).2.
Proof.
  induction rest as [|s rest IH]; intros pre li ll Hc; simpl.
  - by rewrite app_nil_r.
  - pose proof (chosen_step pre s li ll Hc) as Hstep.
    specialize (IH (pre ++ [s]) _ _ Hstep).
    rewrite <- app_assoc in IH. simpl in IH.
    rewrite length_app in IH. simpl in IH.
    replace (Z.of_nat (length pre + 1)) with (Z.of_nat (length pre) + 1) in IH by lia.
    fold (len s). by destruct (len s >? ll).
Qed.

(** The index the loop ends with is in range: the indexing that follows
    it cannot panic. *)
Lemma chooseLongest_total (s1 : list string) :
  exists r, chooseLongest_checked s1 = Some r.
Proof.
  unfold chooseLongest_checked. destruct s1 as [|s s1]; [by eexists|].
  destruct (Z.ltb_spec (Z.of_nat (length (s :: s1))) 1) as [Hlt|_];
    [simpl in Hlt; lia|].
  pose proof (chooseLongest_loop_chosen (s :: s1) [] (-1) (-1)) as H.
  simpl app in H. simpl length in H. change (Z.of_nat 0) with 0 in H.
  destruct (chooseLongest_loop (s :: s1) 0 (-1) (-1)) as [ri rl]. simpl in H.
  destruct H as [(Hnil & _)|(r & Hpos & Hr & _)]; [by left| |].
  - discriminate.
  - exists r. unfold index. by destruct (Z.ltb_spec ri 0); [lia|].
Qed.

(** C6. For every non-empty list of candidates chooseLongest returns,
    without panicking, a candidate of greatest length (Go's len, the number
    of bytes of the string), and among the candidates of that length the
    first in argument order: every candidate before the returned one is
    strictly shorter. With no candidate it returns the empty string. For
    path "1", query "22", body "" the resolver GetUserID returns "22", and
    for path "abc", query "de", body "fghij" it returns "fghij". *)
Theorem chooseLongest_longest_first :
  (forall s1 : list string, s1 <> [] ->
     exists (i : nat) (r : string),
       chooseLongest_checked s1 = Some r /\ chooseLongest s1 = r /\
       s1 !! i = Some r /\
       (forall j t, s1 !! j = Some t -> (String.length t <= String.length r)%nat) /\
       (forall j t, (j < i)%nat -> s1 !! j = Some t ->
                    (String.length t < String.length r)%nat)) /\
  chooseLongest [] = "" /\
  GetUserID (params "1" "22" "") = "22" /\
  GetUserID (params "abc" "de" "fghij") = "fghij".
Proof.
  split; [|by repeat split].
  intros s1 Hne.
  pose proof (chooseLongest_loop_chosen s1 [] (-1) (-1)) as H.
  simpl app in H. simpl length in H. change (Z.of_nat 0) with 0 in H.
  unfold chooseLongest, chooseLongest_checked.
  destruct (Z.ltb_spec (Z.of_nat (length s1)) 1) as [Hlt|_];
    [destruct s1; [done|simpl in Hlt; lia]|].
  destruct (chooseLongest_loop s1 0 (-1) (-1)) as [ri rl]. simpl in H.
  destruct H as [(Hnil & _)|(r & Hpos & Hr & Hrl & Hall & Hfirst)];
    [by left|done|].
  exists (Z.to_nat ri), r. unfold index.
  destruct (Z.ltb_spec ri 0) as [Hneg|_]; [lia|]. rewrite Hr. simpl.
  split; [done|]. split; [done|]. split; [done|]. split.
  - intros j t Hj. specialize (Hall j t Hj). unfold len in *. lia.
  - intros j t Hlt Hj. specialize (Hfirst j t Hlt Hj). unfold len in *. lia.
Qed.

Lemma chooseLongest_longest_first_witness :
  ["1"; "22"; ""] <> [] /\
  exists (i : nat) (r : string),
    chooseLongest_checked ["1"; "22"; ""] = Some r /\
    chooseLongest ["1"; "22"; ""] = r /\
    ["1"; "22"; ""] !! i = Some r /\
    (forall j t, ["1"; "22"; ""] !! j = Some t ->
                 (String.length t <= String.length r)%nat) /\
    (forall j t, (j < i)%nat -> ["1"; "22"; ""] !! j = Some t ->
                 (String.length t < String.length r)%nat).
Proof.
  split; [discriminate|].
  apply (proj1 chooseLongest_longest_first). discriminate.
Defined.

(** A tie goes to the earlier argument: path before query before body. *)
Example chooseLongest_tie :
  GetUserID (params "ab" "cd" "ef") = "ab" /\
  GetUserID (params "" "cd" "ef") = "cd" /\
  GetOwnerID (params "ab" "cd" "efg") = "efg".
Proof. by repeat split. Qed.

End LcomProps.

(** ** The transport adapter *)

Module LambdaRouterProps.
Import Events LambdaRouter Spec.
Local Open Scope list_scope.

Lemma convertMap_lookup (input : gmap string (list string)) (key : string) :
  convertMap input !! key = input !! key ≫= only.
Proof.
  unfold convertMap.
  apply (map_fold_weak_ind (fun single m => single !! key = m !! key ≫= only)).
  - by rewrite !lookup_empty.
  - intros i x m r Hi IH.
    destruct (decide (i = key)) as [->|Hne].
    + rewrite lookup_insert_eq. rewrite Hi in IH. simpl in IH.
      destruct x as [|v [|v' x]].
      * done.
      * simpl. by rewrite lookup_insert_eq.
      * assert ((Z.of_nat (length (v :: v' :: x)) =? 1) = false) as ->
          by (apply Z.eqb_neq; simpl length; lia).
        done.
    + rewrite (lookup_insert_ne m) by done. rewrite <- IH.
      destruct (Z.of_nat (length x) =? 1); [|done].
      destruct x; [done|]. by rewrite lookup_insert_ne.
Qed.

(** C8. The single-value map convertMap builds holds a key exactly when
    the input has exactly one value under it, and then maps it to that
    value; a key with no value or with two or more is absent. The event
    ServeHTTP builds takes its single-value header and query maps from
    convertMap and its multi-value maps from the request as they are. *)
Theorem convertMap_exactly_one :
  (forall (input : gmap string (list string)) (key v : string),
     convertMap input !! key = Some v <-> input !! key = Some [v]) /\
  (forall (input : gmap string (list string)) (key : string),
     is_Some (convertMap input !! key) <->
     exists values, input !! key = Some values /\ length values = 1%nat) /\
  (forall (r : Request) (body : string),
     MultiValueHeaders (ServeHTTP_event r body) = Header r /\
     MultiValueQueryStringParameters (ServeHTTP_event r body) = URL_Query r /\
     Headers (ServeHTTP_event r body) = convertMap (Header r) /\
     QueryStringParameters (ServeHTTP_event r body) = convertMap (URL_Query r)).
Proof.
  split; [|split].
  - intros input key v. rewrite convertMap_lookup.
    destruct (input !! key) as [[|v0 [|v1 l]]|]; simpl; split; intros H;
      try discriminate; by simplify_eq.
  - intros input key. rewrite convertMap_lookup.
    destruct (input !! key) as [[|v0 [|v1 l]]|]; simpl; split.
    all: try (intros [? ?]; discriminate).
    all: try (intros (values & Hv & Hlen); simplify_eq; simpl in Hlen; lia).
    + intros _. by exists [v0].
    + intros _. by eexists.
  - intros r body. by repeat split.
Qed.

Example convertMap_sample :
  convertMap {[ "Accept" := ["a"; "b"]; "Host" := ["h"]; "X-Empty" := [] ]}
  = {[ "Host" := "h" ]}.
Proof. by vm_compute. Qed.

End LambdaRouterProps.

(** ** The response builder *)

Module LresProps.
Import Events Runtime Lcom Lres Spec.

Lemma append_assoc (a b c : string) : (a +:+ b) +:+ c = a +:+ (b +:+ c).
Proof.
  induction a as [|x a IH]; [done|].
  change (String x ((a +:+ b) +:+ c) = String x (a +:+ (b +:+ c))).
  by rewrite IH.
Qed.

(** An HTTPError never fails to marshal, and its encoding is the wire
    format. *)
Lemma Marshal_HTTPError (e : HTTPError) :
  Go.Marshal (HTTPError_data e) = Some (error_wire_format (Status e) (Message e)).
Proof.
  unfold HTTPError_data, error_wire_format, Go.Marshal, Go.join.
  change (Go.json_string "status") with (Go.quoted "status").
  change (Go.json_string "message") with (Go.quoted "message").
  by rewrite !append_assoc.
Qed.

Lemma addCors_lookup (w : World) (headers : gmap string string) :
  Forall
    (fun '(envKey, headerKey) =>
       addCors w headers !! headerKey =
       if String.eqb (Getenv w envKey) "" then headers !! headerKey
       else Some (Getenv w envKey))
    cors_pairs.
Proof.
  unfold addCors, cors_pairs.
  destruct (String.eqb (Getenv w CORSHeadersEnvKey) "") eqn:Eh;
  destruct (String.eqb (Getenv w CORSMethodsEnvKey) "") eqn:Em;
  destruct (String.eqb (Getenv w CORSOriginEnvKey) "") eqn:Eo; simpl negb; cbv iota.
  all: rewrite !Forall_cons, Forall_nil, ?Eh, ?Em, ?Eo.
  all: repeat split.
  all: repeat first
         [ rewrite lookup_insert_eq
         | rewrite lookup_insert_ne by (by vm_compute) ].
  all: done.
Qed.

Lemma cors_applied_addCors (w : World) (given headers : gmap string string)
    (res : APIGatewayProxyResponse) :
  ResHeaders res = addCors w headers ->
  Forall (fun '(_, headerKey) => headers !! headerKey = given !! headerKey) cors_pairs ->
  cors_applied w given res.
Proof.
  intros Hres Hsame. unfold cors_applied.
  pose proof (addCors_lookup w headers) as Hl.
  unfold cors_pairs in *. rewrite !Forall_cons in *.
  destruct Hl as (L1 & L2 & L3 & _), Hsame as (S1 & S2 & S3 & _).
  rewrite Hres, <- S1, <- S2, <- S3. by rewrite Forall_nil.
Qed.

Lemma Custom_cors (w : World) status headers data :
  cors_applied w (default ∅ headers) (Custom w status headers data).1.
Proof.
  unfold Custom. destruct (Go.Marshal data); simpl.
  all: eapply cors_applied_addCors; [done|].
  all: unfold cors_pairs; rewrite !Forall_cons, Forall_nil.
  all: by rewrite !lookup_insert_ne by (by vm_compute); destruct headers.
Qed.

Lemma File_headers_cors (contentType : string) (headers : option (gmap string string)) :
  Forall
    (fun '(_, headerKey) =>
       match headers with
       | None => {[ContentTypeKey := contentType]}
       | Some h => <[ContentTypeKey := contentType]> h
       end !! headerKey = default ∅ headers !! headerKey)
    cors_pairs.
Proof.
  unfold cors_pairs; rewrite !Forall_cons, Forall_nil.
  destruct headers; simpl.
  - by rewrite !lookup_insert_ne by (by vm_compute).
  - by rewrite !lookup_singleton_ne by (by vm_compute).
Qed.

(** C7. On the response of every builder (Custom, Success, Error,
    StatusAndError, File, FileB64, Empty), for each of the three CORS
    environment values: if it is not empty, the Access-Control-Allow header
    of that setting holds it, whatever the headers map given by the caller
    held under that name; if it is empty, the header is as the caller's map
    has it (absent for the builders that take no map). *)
Theorem cors_on_every_response (w : World) :
  (forall status headers data,
     cors_applied w (default ∅ headers) (Custom w status headers data).1) /\
  (forall data, cors_applied w ∅ (Success w data).1) /\
  (forall err, cors_applied w ∅ (Error w err).1) /\
  (forall status err, cors_applied w ∅ (StatusAndError w status err).1) /\
  (forall contentType headers fileBytes,
     cors_applied w (default ∅ headers) (File w contentType headers fileBytes).1) /\
  (forall contentType headers fileBytes,
     cors_applied w (default ∅ headers) (FileB64 w contentType headers fileBytes).1) /\
  cors_applied w ∅ (Empty w).1.
Proof.
  repeat split; intros.
  - apply Custom_cors.
  - apply (Custom_cors w _ None).
  - apply (Custom_cors w _ None).
  - apply (Custom_cors w _ None).
  - eapply cors_applied_addCors; [done|apply File_headers_cors].
  - eapply cors_applied_addCors; [done|apply File_headers_cors].
  - apply (Custom_cors w _ None).
Qed.

(** The tests of package lres: with the three variables set to a star the
    headers are on the response, over a value the caller had put there. *)
Example cors_star :
  let res :=
    (Custom Sample.world_cors 418
       (Some {[ "key" := "value"; CORSOriginHeaderKey := "example.org" ]})
       (Go.JStruct [("structKey", Go.JString "structValue")])).1 in
  ResHeaders res !! "key" = Some "value" /\
  ResHeaders res !! ContentTypeKey = Some "application/json; charset=UTF-8" /\
  ResHeaders res !! CORSHeadersHeaderKey = Some "*" /\
  ResHeaders res !! CORSMethodsHeaderKey = Some "*" /\
  ResHeaders res !! CORSOriginHeaderKey = Some "*" /\
  StatusCode res = 418.
Proof. cbv zeta. evaluate_each. Qed.

Lemma Custom_of_HTTPError (w : World) (e : HTTPError) :
  StatusCode (Custom w (Status e) None (HTTPError_data e)).1 = Status e /\
  ResBody (Custom w (Status e) None (HTTPError_data e)).1
    = error_wire_format (Status e) (Message e).
Proof. unfold Custom. by rewrite Marshal_HTTPError. Qed.

Lemma message_shown_cases (exposeServerErrors : bool) (status : Z) (original : string) :
  (status < 500 -> message_shown exposeServerErrors status original = original) /\
  (exposeServerErrors = true ->
   message_shown exposeServerErrors status original = original) /\
  (500 <= status -> exposeServerErrors = false ->
   message_shown exposeServerErrors status original = Go.StatusText status).
Proof.
  unfold message_shown.
  destruct (Z.leb_spec 500 status), exposeServerErrors; simpl;
    repeat split; intros; try done; lia.
Qed.

(** C2. The response of StatusAndError has the given status and that of
    Error the status of the HTTPError found in the error (500 when there is
    none); its body is the wire format of that status and of a message that
    is the standard reason phrase of the status when the status is 500 or
    above and ExposeServerErrors is false, and otherwise (in particular for
    every status below 500) the original message: the text of the error for
    StatusAndError and for an error that is no HTTPError, the Message field
    of the HTTPError for Error. *)
Theorem error_message_exposure (w : World) :
  (forall (status : Z) (err : error),
     StatusCode (StatusAndError w status err).1 = status /\
     ResBody (StatusAndError w status err).1
       = error_wire_format status
           (message_shown (ExposeServerErrors w) status (Error_text err))) /\
  (forall (err : error) (e : HTTPError),
     errors_As err = Some e ->
     StatusCode (Error w err).1 = Status e /\
     ResBody (Error w err).1
       = error_wire_format (Status e)
           (message_shown (ExposeServerErrors w) (Status e) (Message e))) /\
  (forall err : error,
     errors_As err = None ->
     StatusCode (Error w err).1 = 500 /\
     ResBody (Error w err).1
       = error_wire_format 500
           (message_shown (ExposeServerErrors w) 500 (Error_text err))) /\
  (forall (status : Z) (original : string),
     (status < 500 ->
      message_shown (ExposeServerErrors w) status original = original) /\
     (ExposeServerErrors w = true ->
      message_shown (ExposeServerErrors w) status original = original) /\
     (500 <= status -> ExposeServerErrors w = false ->
      message_shown (ExposeServerErrors w) status original = Go.StatusText status)).
Proof.
  split; [|split; [|split]].
  - intros status err. unfold StatusAndError, message_shown.
    rewrite Z.geb_leb. cbn [Status].
    destruct ((500 <=? status) && negb (ExposeServerErrors w));
      apply (Custom_of_HTTPError w (Build_HTTPError _ _)).
  - intros err e He. unfold Error, message_shown. rewrite He, Z.geb_leb.
    destruct ((500 <=? Status e) && negb (ExposeServerErrors w)).
    + apply (Custom_of_HTTPError w (Build_HTTPError _ _)).
    + apply Custom_of_HTTPError.
  - intros err He. unfold Error, message_shown. rewrite He, Z.geb_leb.
    cbn [Status]. unfold Go.StatusInternalServerError.
    change (500 <=? 500) with true. cbn [andb].
    destruct (negb (ExposeServerErrors w));
      apply (Custom_of_HTTPError w (Build_HTTPError _ _)).
  - intros status original. apply message_shown_cases.
Qed.

Lemma error_message_exposure_witness :
  errors_As (Wrapped "lookup failed" (HTTPError_error (Build_HTTPError 503 "db down")))
    = Some (Build_HTTPError 503 "db down") /\
  StatusCode (Error Sample.world_cors
                (Wrapped "lookup failed" (HTTPError_error (Build_HTTPError 503 "db down")))).1
    = 503 /\
  ResBody (Error Sample.world_cors
             (Wrapped "lookup failed" (HTTPError_error (Build_HTTPError 503 "db down")))).1
    = error_wire_format 503
        (message_shown false 503 "db down").
Proof.
  split; [reflexivity|].
  exact (proj1 (proj2 (error_message_exposure Sample.world_cors))
           (Wrapped "lookup failed" (HTTPError_error (Build_HTTPError 503 "db down")))
           (Build_HTTPError 503 "db down") eq_refl).
Defined.

(** The cases of the tests of package lres. *)
Example Error_bodies :
  ResBody (Error Sample.world (HTTPError_error (Build_HTTPError 400 "Invalid input"))).1
    = "{" +:+ Go.quoted "status" +:+ ":400," +:+ Go.quoted "message" +:+ ":"
          +:+ Go.quoted "Invalid input" +:+ "}" /\
  ResBody (Error Sample.world (errors_New "database down")).1
    = error_wire_format 500 "database down" /\
  ResBody (Error Sample.world_cors (errors_New "database down")).1
    = error_wire_format 500 "Internal Server Error" /\
  ResBody (Error Sample.world_cors (HTTPError_error (Build_HTTPError 400 "Invalid input"))).1
    = error_wire_format 400 "Invalid input" /\
  ResBody (StatusAndError Sample.world_cors 418 (errors_New "hello there")).1
    = error_wire_format 418 "hello there" /\
  ResBody (StatusAndError Sample.world_cors 599 (errors_New "hello there")).1
    = error_wire_format 599 "".
Proof. by vm_compute. Qed.

Lemma failure_body_not_wire_format (status : Z) (message : string) :
  marshal_failure_body <> error_wire_format status message.
Proof.
  intros H. apply (f_equal (substring 2 1)) in H.
  unfold marshal_failure_body, error_wire_format, Go.quoted in H.
  by vm_compute in H.
Qed.

(** C1, as the code has it. When json.Marshal fails on the data, Custom
    returns status 500 and a nil error whatever status was asked and
    whatever ExposeServerErrors holds, and the body is the literal
    {"code":500,"message":"the server has encountered an unexpected error"}:
    its first key is code, not status, so the body is not the wire format
    of the generic payload, nor the wire format of any status and
    message. *)
Theorem Custom_marshal_failure (w : World) (status : Z)
    (headers : option (gmap string string)) (data : Go.data) :
  Go.Marshal data = None ->
  StatusCode (Custom w status headers data).1 = 500 /\
  (Custom w status headers data).2 = None /\
  ResBody (Custom w status headers data).1
    = "{" +:+ Go.quoted "code" +:+ ":500," +:+ Go.quoted "message" +:+ ":"
          +:+ Go.quoted generic_message +:+ "}" /\
  ResBody (Custom w status headers data).1 <> error_wire_format 500 generic_message /\
  (forall s m, ResBody (Custom w status headers data).1 <> error_wire_format s m).
Proof.
  intros Hfail. unfold Custom. rewrite Hfail. cbn [fst snd StatusCode ResBody].
  repeat split; auto using failure_body_not_wire_format.
Qed.

Lemma Custom_marshal_failure_witness :
  Go.Marshal Go.JUnsupported = None /\
  StatusCode (Custom Sample.world 418 None Go.JUnsupported).1 = 500 /\
  ResBody (Custom Sample.world 418 None Go.JUnsupported).1
    <> error_wire_format 500 generic_message.
Proof.
  split; [reflexivity|].
  pose proof (Custom_marshal_failure Sample.world 418 None Go.JUnsupported eq_refl)
    as (H1 & _ & _ & H2 & _).
  exact (conj H1 H2).
Defined.

End LresProps.

(** ** The middleware *)

Module LmwProps.
Import Events Runtime Lcom Lres Ljwt Pipeline Spec.
Local Open Scope list_scope.

Section Middleware.
Variable K : Keys.
Variable X : External.

(** *** AllowOptionsMW *)

Lemma EmptyRes_response (w : World) :
  EmptyRes w =
  ({| StatusCode := 200;
      ResHeaders := addCors w {[ContentTypeKey := "application/json; charset=UTF-8"]};
      ResMultiValueHeaders := ∅;
      ResBody := "{}";
      ResIsBase64Encoded := false |}, None).
Proof. unfold EmptyRes, Empty, Custom. simpl. by rewrite insert_empty. Qed.

(** *** The claims decoders *)

Lemma ExtractJWT_missing (headers : gmap string string) :
  headers !! "Authorization" = None ->
  ExtractJWT X headers = (nilClaims X, 400, Some (ErrNoAuthorizationHeader X)).
Proof. intros H. unfold ExtractJWT. by rewrite H. Qed.

Lemma StatusAndErrorRes_400 (w : World) (err : error) :
  exists res,
    StatusAndErrorRes w 400 err = (res, None) /\
    StatusCode res = 400 /\
    ResBody res = error_wire_format 400 (Error_text err).
Proof.
  unfold StatusAndErrorRes, StatusAndError. cbn [Status Message].
  change ((400 >=? 500) && negb (ExposeServerErrors w)) with false.
  cbv iota. cbn [Status]. unfold Custom.
  rewrite (LresProps.Marshal_HTTPError (Build_HTTPError 400 (Error_text err))).
  eexists. split; [reflexivity|]. by split.
Qed.

(** C3. For a request whose header map has no Authorization entry,
    DecodeStandardMW and DecodeExpandedMW (the same in both sources of the
    package) return, with a nil error, one response of status 400 whose body
    is the wire format of status 400 and of the text of
    ErrNoAuthorizationHeader; the response and the world are the same for
    every next handler, whatever that handler would do to the world: the
    next handler is not run. *)
Theorem Decode_missing_authorization
    (ctx : Context) (req : APIGatewayProxyRequest) (w : World) :
  Headers req !! "Authorization" = None ->
  exists res,
    StatusCode res = 400 /\
    ResBody res = error_wire_format 400 (Error_text (ErrNoAuthorizationHeader X)) /\
    forall next : Handler,
      Lmw.DecodeStandardMW K X next ctx req w = ((res, None), w) /\
      Lmw.DecodeExpandedMW K X next ctx req w = ((res, None), w) /\
      Lmw000.DecodeStandardMW K X next ctx req w = ((res, None), w) /\
      Lmw000.DecodeExpandedMW K X next ctx req w = ((res, None), w).
Proof.
  intros Hmiss.
  destruct (StatusAndErrorRes_400 w (ErrNoAuthorizationHeader X)) as (res & Hres & Hcode & Hbody).
  exists res. split; [done|]. split; [done|]. intros next.
  unfold Lmw000.DecodeStandardMW, Lmw000.DecodeExpandedMW,
    Lmw.DecodeStandardMW, Lmw.DecodeExpandedMW.
  rewrite (ExtractJWT_missing _ Hmiss). unfold built.
  change StatusBadRequest with 400. by rewrite Hres.
Qed.

(** C10. Whatever the context, the request (so whatever its HTTP method)
    and the world, the handler AllowOptionsMW returns, with a nil error and
    without changing the world, the response of status 200 whose body is
    the empty JSON object. AllowOptionsMW is a handler, not a function from
    a next handler to a handler: there is no next handler it could run. *)
Theorem AllowOptionsMW_always_ok
    (ctx : Context) (req : APIGatewayProxyRequest) (w : World) :
  exists res,
    StatusCode res = 200 /\ ResBody res = "{}" /\ ResIsBase64Encoded res = false /\
    (Lmw.AllowOptionsMW : Handler) ctx req w = ((res, None), w) /\
    (Lmw000.AllowOptionsMW : Handler) ctx req w = ((res, None), w) /\
    forall (ctx' : Context) (req' : APIGatewayProxyRequest),
      Lmw.AllowOptionsMW ctx' req' w = ((res, None), w).
Proof.
  exists (EmptyRes w).1.
  unfold Lmw000.AllowOptionsMW, Lmw.AllowOptionsMW, built.
  rewrite EmptyRes_response. cbn [fst].
  by repeat split.
Qed.

(** *** LogRequestMW *)

Lemma Lmw_LogRequestMW_result (next : Handler) ctx req w :
  (Lmw.LogRequestMW K next ctx req w).1 = (next ctx req w).1.
Proof.
  unfold Lmw.LogRequestMW.
  destruct (next ctx req w) as [[res err] w']. simpl.
  destruct err as [e|]; simpl; [done|].
  by destruct (StatusCode res >? 399).
Qed.

Lemma Lmw000_LogRequestMW_result (next : Handler) ctx req w :
  (Lmw000.LogRequestMW K next ctx req w).1 =
  match (next ctx req w).1.2 with
  | Some e => (with_StatusCode 500 (next ctx req w).1.1, Some e)
  | None => (next ctx req w).1
  end.
Proof.
  unfold Lmw000.LogRequestMW.
  destruct (next ctx req w) as [[res err] w']. simpl. by destruct err.
Qed.

(** The log line comes after whatever the next handler did to the world. *)
Lemma Lmw_LogRequestMW_world (next : Handler) ctx req w :
  exists events,
    events <> [] /\
    logged (Lmw.LogRequestMW K next ctx req w).2
      = logged (next ctx req w).2 ++ events /\
    environ (Lmw.LogRequestMW K next ctx req w).2 = environ (next ctx req w).2 /\
    ExposeServerErrors (Lmw.LogRequestMW K next ctx req w).2
      = ExposeServerErrors (next ctx req w).2.
Proof.
  unfold Lmw.LogRequestMW.
  destruct (next ctx req w) as [[res err] w']. simpl.
  destruct err as [e|]; simpl; [|destruct (StatusCode res >? 399); simpl].
  all: rewrite <- ?app_assoc; eexists; (split; [|split; [reflexivity|done]]); done.
Qed.

(** C5, on both sources. LogRequestMW of src/lmw/lmw.go returns the response
    and the error of the next handler as they are, for every next handler.
    LogRequestMW of src/unnamed/part_000 does so when the next handler
    returns a nil error; when it returns an error, the error is returned as
    it is and the response has its status code overwritten with 500, so a
    next handler returning status 200 with an error gets status 500 back. *)
Theorem LogRequestMW_response :
  (forall (next : Handler) ctx req w,
     (Lmw.LogRequestMW K next ctx req w).1 = (next ctx req w).1) /\
  (forall (next : Handler) ctx req w,
     (next ctx req w).1.2 = None ->
     (Lmw000.LogRequestMW K next ctx req w).1 = (next ctx req w).1) /\
  (forall (next : Handler) ctx req w e,
     (next ctx req w).1.2 = Some e ->
     (Lmw000.LogRequestMW K next ctx req w).1
       = (with_StatusCode 500 (next ctx req w).1.1, Some e)) /\
  (let next := Sample.mockHandler (Sample.response 200) (Some (errors_New "boom")) in
   StatusCode (next ∅ Sample.plain_get Sample.world).1.1 = 200 /\
   StatusCode (Lmw000.LogRequestMW K next ∅ Sample.plain_get Sample.world).1.1 = 500).
Proof.
  split; [|split; [|split]].
  - apply Lmw_LogRequestMW_result.
  - intros next ctx req w H. by rewrite Lmw000_LogRequestMW_result, H.
  - intros next ctx req w e H. by rewrite Lmw000_LogRequestMW_result, H.
  - done.
Qed.

(** *** InjectLambdaContextMW *)

Lemma addToContext_lookup (ctx : Context) (vals : gmap string any) (key : string) :
  Lmw000.addToContext ctx vals !! key =
  match vals !! key with
  | Some Nil => ctx !! key
  | Some (Str s) => if String.eqb s "" then ctx !! key else Some (Str s)
  | Some v => Some v
  | None => ctx !! key
  end.
Proof.
  unfold Lmw000.addToContext.
  apply (map_fold_weak_ind (fun (r : Context) (m : gmap string any) =>
    r !! key = match m !! key with
               | Some Nil => ctx !! key
               | Some (Str s) => if String.eqb s "" then ctx !! key else Some (Str s)
               | Some v => Some v
               | None => ctx !! key
               end)).
  - by rewrite lookup_empty.
  - intros i x m r Hi IH. unfold WithValue.
    destruct (decide (i = key)) as [->|Hne].
    + rewrite Hi in IH. rewrite (lookup_insert_eq m).
      destruct x as [|s| | |]; rewrite ?lookup_insert_eq; try done.
      destruct (String.eqb s ""); cbn [negb]; [done|by rewrite lookup_insert_eq].
    + rewrite (lookup_insert_ne m) by done. rewrite <- IH.
      destruct x as [|s| | |]; rewrite ?lookup_insert_ne by done; try done.
      destruct (String.eqb s ""); cbn [negb]; [done|by rewrite lookup_insert_ne].
Qed.

Lemma Lmw000_Inject_calls_next (ctx : Context) (req : APIGatewayProxyRequest) (w : World) :
  forall next : Handler,
    Lmw000.InjectLambdaContextMW K X next ctx req w
    = next (Lmw000.addToContext ctx
              (Lmw000.contextVals K (UnmarshalReq X req true zeroLambdaParams).1 req))
           req w.
Proof.
  intros next. unfold Lmw000.InjectLambdaContextMW.
  by destruct (UnmarshalReq X req true zeroLambdaParams).
Qed.

(** C4, on both sources. InjectLambdaContextMW of src/unnamed/part_000
    drops whatever error the unmarshalling returns: for every request its
    result is the result of the next handler, run on the request and on a
    context that does not depend on the handler. InjectLambdaContextMW of
    src/lmw/lmw.go does not: when the unmarshalling returns an error, it
    returns the response lres builds from that error, with a nil error, and
    the world as it was, for every next handler, so the next handler is not
    run. *)
Theorem InjectLambdaContextMW_on_unmarshal_error
    (ctx : Context) (req : APIGatewayProxyRequest) (w : World) :
  (exists ctx', forall next : Handler,
     Lmw000.InjectLambdaContextMW K X next ctx req w = next ctx' req w) /\
  (forall e, (UnmarshalReq X req true zeroLambdaParams).2 = Some e ->
     forall next : Handler,
       Lmw.InjectLambdaContextMW K X next ctx req w = (Lres.Error w e, w)) /\
  ((UnmarshalReq X req true zeroLambdaParams).2 = None ->
     exists ctx', forall next : Handler,
       Lmw.InjectLambdaContextMW K X next ctx req w = next ctx' req w).
Proof.
  split; [|split].
  - eexists. apply Lmw000_Inject_calls_next.
  - intros e He next. unfold Lmw.InjectLambdaContextMW.
    destruct (UnmarshalReq X req true zeroLambdaParams) as [lp err].
    simpl in He. by subst err.
  - intros He. unfold Lmw.InjectLambdaContextMW.
    destruct (UnmarshalReq X req true zeroLambdaParams) as [lp err].
    simpl in He. subst err. by eexists.
Qed.

(** C9, as amended. The context InjectLambdaContextMW of
    src/unnamed/part_000 hands to the next handler holds, under every key,
    either what the incoming context held or a value that is neither the
    untyped nil nor the empty string; a string of the map literal is stored
    exactly when it is not empty, and a map of the literal is stored as it
    is, whatever it holds. *)
Theorem InjectLambdaContextMW_context
    (ctx : Context) (req : APIGatewayProxyRequest) (w : World) :
  exists ctx',
    (forall next : Handler,
       Lmw000.InjectLambdaContextMW K X next ctx req w = next ctx' req w) /\
    only_nonempty_strings_added ctx ctx' /\
    (forall key v,
       Lmw000.contextVals K (UnmarshalReq X req true zeroLambdaParams).1 req !! key
         = Some v ->
       match v with
       | Nil => ctx' !! key = ctx !! key
       | Str s => ctx' !! key = if String.eqb s "" then ctx !! key else Some v
       | _ => ctx' !! key = Some v
       end).
Proof.
  eexists. split; [apply Lmw000_Inject_calls_next|]. split.
  - intros key v. rewrite addToContext_lookup.
    destruct (_ !! key) as [[|s| | |]|]; try (by left).
    + destruct (String.eqb_spec s ""); [by left|].
      intros [= <-]. right. split; congruence.
    + intros [= <-]. by right.
    + intros [= <-]. by right.
    + intros [= <-]. by right.
  - intros key v Hv. rewrite addToContext_lookup, Hv. by destruct v.
Qed.

End Middleware.

Lemma Decode_missing_authorization_witness :
  Headers Sample.plain_get !! "Authorization" = None /\
  exists res,
    StatusCode res = 400 /\
    ResBody res = error_wire_format 400 "no Authorization header value set" /\
    forall next : Handler,
      Lmw.DecodeStandardMW Sample.keys Sample.external next ∅ Sample.plain_get Sample.world
        = ((res, None), Sample.world) /\
      Lmw.DecodeExpandedMW Sample.keys Sample.external next ∅ Sample.plain_get Sample.world
        = ((res, None), Sample.world) /\
      Lmw000.DecodeStandardMW Sample.keys Sample.external next ∅ Sample.plain_get Sample.world
        = ((res, None), Sample.world) /\
      Lmw000.DecodeExpandedMW Sample.keys Sample.external next ∅ Sample.plain_get Sample.world
        = ((res, None), Sample.world).
Proof.
  split; [reflexivity|].
  exact (Decode_missing_authorization Sample.keys Sample.external
           ∅ Sample.plain_get Sample.world eq_refl).
Defined.

Lemma LogRequestMW_response_witness :
  let next := Sample.mockHandler (Sample.response 200) (Some (errors_New "boom")) in
  (next ∅ Sample.plain_get Sample.world).1.2 = Some (errors_New "boom") /\
  (Lmw000.LogRequestMW Sample.keys next ∅ Sample.plain_get Sample.world).1
    = (Sample.response 500, Some (errors_New "boom")).
Proof.
  split; [reflexivity|].
  exact (proj1 (proj2 (proj2 (LogRequestMW_response Sample.keys)))
           (Sample.mockHandler (Sample.response 200) (Some (errors_New "boom")))
           ∅ Sample.plain_get Sample.world (errors_New "boom") eq_refl).
Defined.

Lemma InjectLambdaContextMW_on_unmarshal_error_witness :
  (Sample.unmarshalReq Sample.bad_post true zeroLambdaParams).2
    = Some (errors_New "invalid character looking for beginning of value") /\
  forall next : Handler,
    Lmw.InjectLambdaContextMW Sample.keys Sample.external next ∅ Sample.bad_post Sample.world
    = (Lres.Error Sample.world
         (errors_New "invalid character looking for beginning of value"),
       Sample.world).
Proof.
  split; [reflexivity|].
  exact (proj1 (proj2 (InjectLambdaContextMW_on_unmarshal_error
                         Sample.keys Sample.external ∅ Sample.bad_post Sample.world))
           (errors_New "invalid character looking for beginning of value") eq_refl).
Defined.

Lemma InjectLambdaContextMW_context_witness :
  exists ctx',
    (forall next : Handler,
       Lmw000.InjectLambdaContextMW Sample.keys Sample.external next ∅
         Sample.plain_get Sample.world
       = next ctx' Sample.plain_get Sample.world) /\
    ctx' !! "queryParams" = Some (MapOfString ∅) /\
    ctx' !! "id" = None.
Proof.
  destruct (InjectLambdaContextMW_context Sample.keys Sample.external
              ∅ Sample.plain_get Sample.world) as (ctx' & Hnext & _ & Hvals).
  exists ctx'. split; [exact Hnext|]. split.
  - apply (Hvals "queryParams" (MapOfString ∅)). by vm_compute.
  - apply (Hvals "id" (Str "")). by vm_compute.
Defined.

(** C9 as stated fails: for a GET without parameters the context handed to
    the next handler holds, under the keys of the three parameter maps, maps
    without entries, which the empty context did not hold. *)
Lemma InjectLambdaContextMW_stores_empty_maps :
  (forall next : Handler,
     Lmw000.InjectLambdaContextMW Sample.keys Sample.external next ∅
       Sample.plain_get Sample.world
     = next Sample.injected Sample.plain_get Sample.world) /\
  Sample.injected !! "queryParams" = Some (MapOfString ∅) /\
  Sample.injected !! "pathParams" = Some (MapOfString ∅) /\
  Sample.injected !! "multiParams" = Some (MapOfStrings ∅) /\
  is_empty_value (MapOfString ∅) = true /\
  ~ only_nonempty_added ∅ Sample.injected.
Proof.
  assert (Sample.injected !! "queryParams" = Some (MapOfString ∅)) as Hq
    by (by vm_compute).
  split.
  { intros next.
    exact (Lmw000_Inject_calls_next Sample.keys Sample.external
             ∅ Sample.plain_get Sample.world next). }
  evaluate_each.
  intros Hclaim. destruct (Hclaim _ _ Hq) as [H|H]; by vm_compute in H.
Qed.

(** The cases of the tests of package lmw. *)
Example middleware_samples :
  StatusCode (Lmw.AllowOptionsMW ∅ (Sample.request "DELETE" "/books/1" "") Sample.world).1.1
    = 200 /\
  StatusCode (Lmw.DecodeExpandedMW Sample.keys Sample.external
                (Sample.mockHandler (Sample.response 500) None)
                ∅ Sample.plain_get Sample.world).1.1 = 400 /\
  Sample.injected !! "method" = Some (Str "GET") /\
  Sample.injected !! "userId" = None /\
  logged (Lmw000.LogRequestMW Sample.keys (Sample.mockHandler (Sample.response 400) None)
            Sample.injected Sample.plain_get Sample.world).2
    = [Event ErrorLevel
         [RawJSON "body" (Go.quoted "");
          Interface "method" (Str "GET");
          Interface "multiParams" (MapOfStrings ∅);
          Interface "path" (Str "/books");
          Interface "pathParams" (MapOfString ∅);
          Interface "queryParams" (MapOfString ∅);
          Interface "requestId" (Str "req-1");
          Int "statusCode" 400]
         "request finished"].
Proof. cbv zeta. evaluate_each. Qed.

End LmwProps.

(** ** More on the parameter resolver *)

Module LcomExtra.
Import Lcom Spec Resolver.
Local Open Scope list_scope.

Lemma length_zero_empty (s : string) : String.length s = 0%nat -> s = "".
Proof. by destruct s. Qed.

(** The loop, read from the invariant [chosen]: for a list that is not
    empty the result sits at an index, is as long as any candidate and
    strictly longer than every earlier one. *)
Lemma chooseLongest_at (s1 : list string) :
  s1 <> [] ->
  exists i : nat,
    s1 !! i = Some (chooseLongest s1) /\
    (forall j t, s1 !! j = Some t ->
       (String.length t <= String.length (chooseLongest s1))%nat) /\
    (forall j t, (j < i)%nat -> s1 !! j = Some t ->
       (String.length t < String.length (chooseLongest s1))%nat).
Proof.
  intros Hne.
  pose proof (LcomProps.chooseLongest_loop_chosen s1 [] (-1) (-1)) as H.
  simpl app in H. simpl length in H. change (Z.of_nat 0) with 0 in H.
  unfold chooseLongest, chooseLongest_checked.
  destruct (Z.ltb_spec (Z.of_nat (length s1)) 1) as [Hlt|_];
    [destruct s1; [done|simpl in Hlt; lia]|].
  destruct (chooseLongest_loop s1 0 (-1) (-1)) as [ri rl]. simpl in H.
  destruct H as [(Hnil & _)|(r & Hpos & Hr & Hrl & Hall & Hfirst)];
    [by left|done|].
  exists (Z.to_nat ri). unfold index.
  destruct (Z.ltb_spec ri 0) as [Hneg|_]; [lia|]. rewrite Hr. simpl.
  split; [done|]. split.
  - intros j t Hj. specialize (Hall j t Hj). unfold len in *. lia.
  - intros j t Hlt Hj. specialize (Hfirst j t Hlt Hj). unfold len in *. lia.
Qed.

Lemma first_longest_at (s1 : list string) :
  s1 <> [] ->
  exists i : nat,
    s1 !! i = Some (first_longest s1) /\
    (forall j t, s1 !! j = Some t ->
       (String.length t <= String.length (first_longest s1))%nat) /\
    (forall j t, (j < i)%nat -> s1 !! j = Some t ->
       (String.length t < String.length (first_longest s1))%nat).
Proof.
  induction s1 as [|s rest IH]; [done|]. intros _.
  destruct rest as [|s' rest'].
  - exists 0%nat. simpl. unfold pick. simpl.
    split; [done|]. split.
    + intros [|j] t Hj; simpl in Hj; [|done]. injection Hj as <-. lia.
    + intros j t Hlt. lia.
  - destruct IH as (i & Hi & Hmax & Hfirst); [done|].
    set (r := first_longest (s' :: rest')) in *.
    change (first_longest (s :: s' :: rest')) with (pick s r). unfold pick.
    destruct (Nat.ltb_spec (String.length s) (String.length r)) as [Hlt|Hge].
    + exists (S i). split; [done|]. split.
      * intros [|j] t Hj; simpl in Hj; [injection Hj as <-; lia|by eapply Hmax].
      * intros [|j] t Hj Ht; simpl in Ht; [injection Ht as <-; lia|].
        eapply Hfirst; [|done]. lia.
    + exists 0%nat. split; [done|]. split.
      * intros [|j] t Hj; simpl in Hj; [injection Hj as <-; lia|].
        specialize (Hmax j t Hj). lia.
      * intros j t Hlt. lia.
Qed.

(** chooseLongest is the recursion [first_longest]. *)
Lemma chooseLongest_first_longest (s1 : list string) :
  chooseLongest s1 = first_longest s1.
Proof.
  destruct (decide (s1 = [])) as [->|Hne]; [done|].
  destruct (chooseLongest_at s1 Hne) as (i & Hi & Hmax & Hfirst).
  destruct (first_longest_at s1 Hne) as (i' & Hi' & Hmax' & Hfirst').
  destruct (Nat.lt_trichotomy i i') as [Hlt|[->|Hgt]].
  - specialize (Hfirst' i _ Hlt Hi). specialize (Hmax i' _ Hi'). lia.
  - congruence.
  - specialize (Hfirst i' _ Hgt Hi'). specialize (Hmax' i _ Hi). lia.
Qed.

Lemma pick_assoc (x y z : string) : pick x (pick y z) = pick (pick x y) z.
Proof.
  unfold pick.
  destruct (String.length y <? String.length z)%nat eqn:Eyz;
  destruct (String.length x <? String.length y)%nat eqn:Exy;
  destruct (String.length x <? String.length z)%nat eqn:Exz;
  rewrite ?Eyz, ?Exy, ?Exz; try done.
  all: rewrite ?Nat.ltb_lt, ?Nat.ltb_ge in *; lia.
Qed.

Lemma pick_empty (x : string) : pick x "" = x /\ pick "" x = x.
Proof.
  unfold pick. split; [done|].
  destruct (Nat.ltb_spec (String.length "") (String.length x)) as [|Hle]; [done|].
  simpl in Hle. symmetry. apply length_zero_empty. lia.
Qed.

Lemma first_longest_app (a b : list string) :
  first_longest (a ++ b) = pick (first_longest a) (first_longest b).
Proof.
  induction a as [|s a IH]; simpl.
  - by rewrite (proj2 (pick_empty _)).
  - by rewrite IH, pick_assoc.
Qed.

(** X1. The resolver finds nothing exactly when there is nothing to find:
    chooseLongest returns the empty string if and only if every candidate
    is the empty string (in particular GetID, GetUserID and GetUserType are
    empty exactly when all their sources are). *)
Theorem chooseLongest_empty_iff (s1 : list string) :
  chooseLongest s1 = "" <-> Forall (fun s => s = "") s1.
Proof.
  rewrite chooseLongest_first_longest.
  induction s1 as [|s rest IH]; simpl.
  - split; [constructor|done].
  - rewrite Forall_cons. rewrite <- IH. unfold pick.
    destruct (Nat.ltb_spec (String.length s) (String.length (first_longest rest)))
      as [Hlt|Hge].
    + split.
      * intros H. rewrite H in Hlt. simpl in Hlt. lia.
      * intros [-> H]. done.
    + split.
      * intros ->. split; [done|]. simpl in Hge.
        apply length_zero_empty. lia.
      * by intros [-> _].
Qed.

(** X2. GetOwnerID, which resolves the two resolved values GetID and GetUserID,
    is the resolver run once on the five sources in the order path id,
    query id, path user id, query user id, body user id. *)
Theorem GetOwnerID_flat (lp : LambdaParams) :
  GetOwnerID lp
  = chooseLongest [IDPath lp; IDQuery lp; UserIDPath lp; UserIDQuery lp; UserIDBody lp].
Proof.
  unfold GetOwnerID, GetID, GetUserID.
  rewrite !chooseLongest_first_longest.
  change [IDPath lp; IDQuery lp; UserIDPath lp; UserIDQuery lp; UserIDBody lp]
    with ([IDPath lp; IDQuery lp] ++ [UserIDPath lp; UserIDQuery lp; UserIDBody lp]).
  rewrite first_longest_app.
  cbn [first_longest]. by rewrite (proj1 (pick_empty _)).
Qed.

(** X3. Candidates that are not longer than the one already chosen change
    nothing when they come later. *)
Theorem chooseLongest_later_not_longer (s1 later : list string) :
  Forall (fun t => (String.length t <= String.length (chooseLongest s1))%nat) later ->
  s1 <> [] ->
  chooseLongest (s1 ++ later) = chooseLongest s1.
Proof.
  intros Hall Hne. rewrite !chooseLongest_first_longest in *.
  rewrite first_longest_app.
  assert (String.length (first_longest later)
          <= String.length (first_longest s1))%nat as Hle.
  { induction Hall as [|t later Ht Hall IH]; simpl; [lia|].
    unfold pick. by destruct (_ <? _)%nat. }
  unfold pick. by destruct (Nat.ltb_spec (String.length (first_longest s1))
                              (String.length (first_longest later))); [lia|].
Qed.

Lemma chooseLongest_later_not_longer_witness :
  Forall (fun t => (String.length t <= String.length (chooseLongest ["abc"; "de"]))%nat)
    ["xyz"; ""] /\
  ["abc"; "de"] <> [] /\
  chooseLongest (["abc"; "de"] ++ ["xyz"; ""]) = chooseLongest ["abc"; "de"].
Proof.
  assert (Forall (fun t => (String.length t <= String.length (chooseLongest ["abc"; "de"]))%nat)
            ["xyz"; ""]) as H1
    by (repeat constructor).
  assert (["abc"; "de"] <> []) as H2 by discriminate.
  exact (conj H1 (conj H2 (chooseLongest_later_not_longer _ _ H1 H2))).
Defined.

End LcomExtra.

(** ** Base64: decoding what was encoded *)

Module Base64Props.
Import GoExtra.
Local Open Scope list_scope.

Ltac Zify.zify_post_hook ::= Z.to_euclidean_division_equations.

Lemma decodeMap_b64_char (n : N) :
  (n < 64)%N -> decodeMap (Go.b64_char n) = Some n.
Proof.
  intros Hn.
  assert (forallb
            (fun k => match decodeMap (Go.b64_char (N.of_nat k)) with
                      | Some m => N.eqb m (N.of_nat k)
                      | None => false
                      end) (seq 0 64) = true) as Hall by (by vm_compute).
  rewrite forallb_forall in Hall.
  specialize (Hall (N.to_nat n)).
  rewrite N2Nat.id in Hall.
  destruct (decodeMap (Go.b64_char n)) as [m|].
  - f_equal. apply N.eqb_eq. apply Hall. apply in_seq. lia.
  - discriminate Hall. apply in_seq. lia.
Qed.

Lemma byte_of_ascii (a : ascii) (n : N) :
  (n mod 256 = N_of_ascii a)%N -> byte n = a.
Proof. intros H. unfold byte. rewrite H. apply ascii_N_embedding. Qed.

Lemma ascii_bound (a : ascii) : (N_of_ascii a < 256)%N.
Proof. apply N_ascii_bounded. Qed.

Lemma decode_one (a0 : ascii) :
  decode (Go.EncodeToString (String a0 EmptyString)) [] = Some (String a0 EmptyString).
Proof.
  pose proof (ascii_bound a0).
  cbn [Go.EncodeToString decode].
  rewrite decodeMap_b64_char by lia. cbn [app decode].
  rewrite decodeMap_b64_char by lia. cbn [app].
  change (decode "==" [(N_of_ascii a0 / 4)%N; (N_of_ascii a0 mod 4 * 16)%N])
    with (Some (String (byte (N_of_ascii a0 / 4 * 4 + N_of_ascii a0 mod 4 * 16 / 16))
                  EmptyString)).
  do 2 f_equal. apply byte_of_ascii. lia.
Qed.

Lemma decode_two (a0 a1 : ascii) :
  decode (Go.EncodeToString (String a0 (String a1 EmptyString))) []
  = Some (String a0 (String a1 EmptyString)).
Proof.
  pose proof (ascii_bound a0). pose proof (ascii_bound a1).
  cbn [Go.EncodeToString decode].
  rewrite decodeMap_b64_char by lia. cbn [app decode].
  rewrite decodeMap_b64_char by lia. cbn [app decode].
  rewrite decodeMap_b64_char by lia. cbn [app].
  set (v0 := (N_of_ascii a0 / 4)%N).
  set (v1 := (N_of_ascii a0 mod 4 * 16 + N_of_ascii a1 / 16)%N).
  set (v2 := (N_of_ascii a1 mod 16 * 4)%N).
  change (decode "=" [v0; v1; v2])
    with (Some (String (byte (v0 * 4 + v1 / 16))
                  (String (byte ((v1 mod 16) * 16 + v2 / 4)) EmptyString))).
  subst v0 v1 v2.
  f_equal. f_equal; [|f_equal]; apply byte_of_ascii; lia.
Qed.

Lemma decode_three (a0 a1 a2 : ascii) (rest : string) :
  decode (Go.EncodeToString (String a0 (String a1 (String a2 rest)))) []
  = match decode (Go.EncodeToString rest) [] with
    | Some out => Some (String a0 (String a1 (String a2 out)))
    | None => None
    end.
Proof.
  pose proof (ascii_bound a0). pose proof (ascii_bound a1). pose proof (ascii_bound a2).
  cbn [Go.EncodeToString decode].
  rewrite decodeMap_b64_char by lia. cbn [app decode].
  rewrite decodeMap_b64_char by lia. cbn [app decode].
  rewrite decodeMap_b64_char by lia. cbn [app decode].
  rewrite decodeMap_b64_char by lia.
  destruct (decode (Go.EncodeToString rest) []) as [out|]; [|done].
  f_equal. f_equal; [|f_equal; [|f_equal]]; apply byte_of_ascii; lia.
Qed.

Lemma decode_encode_bounded (n : nat) :
  forall s : string, (String.length s < n)%nat ->
    DecodeString (Go.EncodeToString s) = Some s.
Proof.
  unfold DecodeString.
  induction n as [|n IH]; intros s Hlen; [lia|].
  destruct s as [|a0 [|a1 [|a2 rest]]].
  - done.
  - apply decode_one.
  - apply decode_two.
  - rewrite decode_three, IH; [done|]. simpl in Hlen. lia.
Qed.

(** Decoding what EncodeToString produced gives the bytes back, for every
    byte string. *)
Lemma DecodeString_EncodeToString (s : string) :
  DecodeString (Go.EncodeToString s) = Some s.
Proof. apply (decode_encode_bounded (S (String.length s))). lia. Qed.

End Base64Props.

(** ** The loops over maps do not depend on the order *)

Module OrderProps.
Import Events Runtime InOrder.
Local Open Scope list_scope.

(** A loop whose steps for different keys commute gives, over the entries
    of a map in any order, what the fold over the map gives. *)
Lemma fold_left_any_order {A B} (f : string -> A -> B -> B) (b : B)
    (m : gmap string A) (entries : list (string * A)) :
  (forall k1 a1 k2 a2 acc, k1 <> k2 ->
     f k1 a1 (f k2 a2 acc) = f k2 a2 (f k1 a1 acc)) ->
  entries ≡ₚ map_to_list m ->
  fold_left (fun acc entry => f entry.1 entry.2 acc) entries b = map_fold f b m.
Proof.
  intros Hcomm Hperm.
  rewrite map_fold_foldr.
  rewrite <- (fold_left_rev_right (fun entry acc => f entry.1 entry.2 acc)).
  transitivity (foldr (fun entry acc => f entry.1 entry.2 acc) b (map_to_list m)).
  - apply (foldr_permutation (=)).
    + solve_proper.
    + intros j1 [k1 a1] j2 [k2 a2] acc Hj H1 H2. simpl. apply Hcomm.
      assert (NoDup (rev entries).*1) as Hnd.
      { assert (rev entries ≡ₚ map_to_list m) as Hrev
          by (by rewrite <- Permutation_rev).
        rewrite Hrev. apply NoDup_fst_map_to_list. }
      intros ->. apply Hj.
      eapply (NoDup_lookup _ j1 j2 k2 Hnd).
      * by rewrite list_lookup_fmap, H1.
      * by rewrite list_lookup_fmap, H2.
    + by rewrite <- Permutation_rev.
  - apply foldr_ext; [by intros [??]|done..].
Qed.

Lemma fold_left_pointwise {A B} (g g' : B -> A -> B) (l : list A) (b : B) :
  (forall acc x, g acc x = g' acc x) -> fold_left g l b = fold_left g' l b.
Proof.
  intros Hext. revert b. induction l as [|x l IH]; intros b; simpl; [done|].
  by rewrite Hext, IH.
Qed.

(** X4. Whatever the order in which Go ranges over the input map, the loop of
    convertMap builds the same single-value map. *)
Theorem convertMap_any_order (input : gmap string (list string))
    (entries : list (string * list string)) :
  entries ≡ₚ map_to_list input ->
  convertMap_over entries = LambdaRouter.convertMap input.
Proof.
  intros Hperm. unfold convertMap_over, LambdaRouter.convertMap.
  rewrite <- (fold_left_any_order _ _ _ entries); [|..|done].
  - apply fold_left_pointwise. by intros acc [key value].
  - intros k1 a1 k2 a2 acc Hne.
    destruct (Z.of_nat (length a1) =? 1), (Z.of_nat (length a2) =? 1);
      destruct a1, a2; try done.
    by apply insert_insert_ne.
Qed.

Lemma convertMap_any_order_witness :
  [("Host", ["h"]); ("Accept", ["a"; "b"])]
    ≡ₚ map_to_list (list_to_map [("Accept", ["a"; "b"]); ("Host", ["h"])]
                     : gmap string (list string)) /\
  convertMap_over [("Host", ["h"]); ("Accept", ["a"; "b"])]
  = LambdaRouter.convertMap (list_to_map [("Accept", ["a"; "b"]); ("Host", ["h"])]).
Proof.
  assert ([("Host", ["h"]); ("Accept", ["a"; "b"])]
            ≡ₚ map_to_list (list_to_map [("Accept", ["a"; "b"]); ("Host", ["h"])]
                             : gmap string (list string))) as Hperm.
  { rewrite map_to_list_to_map.
    - apply Permutation_swap.
    - apply NoDup_cons. split; [|apply NoDup_singleton].
      rewrite list_elem_of_singleton. discriminate. }
  exact (conj Hperm (convertMap_any_order _ _ Hperm)).
Defined.

(** X5. Whatever the order in which Go ranges over the values to add,
    addToContext builds a context with the same entries. *)
Theorem addToContext_any_order (ctx : Context) (vals : gmap string any)
    (entries : list (string * any)) :
  entries ≡ₚ map_to_list vals ->
  addToContext_over ctx entries = Lmw000.addToContext ctx vals.
Proof.
  intros Hperm. unfold addToContext_over, Lmw000.addToContext.
  rewrite <- (fold_left_any_order _ _ _ entries); [|..|done].
  - apply fold_left_pointwise. by intros acc [key value].
  - intros k1 a1 k2 a2 acc Hne. unfold WithValue.
    destruct a1 as [|s1| | |], a2 as [|s2| | |]; try done;
      repeat match goal with
             | |- context [negb (String.eqb ?s "")] => destruct (String.eqb s "")
             end; cbn [negb]; try done; by apply insert_insert_ne.
Qed.

Lemma addToContext_any_order_witness :
  [("path", Str "/books"); ("method", Str "GET")]
    ≡ₚ map_to_list (list_to_map [("method", Str "GET"); ("path", Str "/books")]
                     : gmap string any) /\
  addToContext_over ∅ [("path", Str "/books"); ("method", Str "GET")]
  = Lmw000.addToContext ∅ (list_to_map [("method", Str "GET"); ("path", Str "/books")]).
Proof.
  assert ([("path", Str "/books"); ("method", Str "GET")]
            ≡ₚ map_to_list (list_to_map [("method", Str "GET"); ("path", Str "/books")]
                             : gmap string any)) as Hperm.
  { rewrite map_to_list_to_map.
    - apply Permutation_swap.
    - apply NoDup_cons. split; [|apply NoDup_singleton].
      rewrite list_elem_of_singleton. discriminate. }
  exact (conj Hperm (addToContext_any_order _ _ _ Hperm)).
Defined.

End OrderProps.

(** ** More on the response builder *)

Module LresExtra.
Import Events Runtime Lcom Lres Spec GoExtra.

Lemma addCors_frame (w : World) (headers : gmap string string) (key : string) :
  key <> CORSHeadersHeaderKey -> key <> CORSMethodsHeaderKey ->
  key <> CORSOriginHeaderKey ->
  addCors w headers !! key = headers !! key.
Proof.
  intros H1 H2 H3. unfold addCors.
  destruct (negb (String.eqb (Getenv w CORSHeadersEnvKey) ""));
  destruct (negb (String.eqb (Getenv w CORSMethodsEnvKey) ""));
  destruct (negb (String.eqb (Getenv w CORSOriginEnvKey) ""));
  by rewrite ?lookup_insert_ne by done.
Qed.

Lemma addCors_content_type (w : World) (headers : gmap string string) :
  addCors w headers !! ContentTypeKey = headers !! ContentTypeKey.
Proof. apply addCors_frame; by vm_compute. Qed.

(** X6. The JSON builders fix the content type and keep the caller's other
    headers: on the response of Custom the Content-Type header is
    application/json; charset=UTF-8 whatever the caller's map held under it,
    the body is not marked base64, the returned error is nil, every header
    other than Content-Type and the three CORS headers is as the caller's
    map has it, and when the data marshals the status is the one asked and
    the body the encoding. *)
Theorem Custom_frame (w : World) (status : Z)
    (headers : option (gmap string string)) (data : Go.data) :
  ResHeaders (Custom w status headers data).1 !! ContentTypeKey
    = Some "application/json; charset=UTF-8" /\
  ResIsBase64Encoded (Custom w status headers data).1 = false /\
  (Custom w status headers data).2 = None /\
  (forall key,
     key <> ContentTypeKey -> key <> CORSHeadersHeaderKey ->
     key <> CORSMethodsHeaderKey -> key <> CORSOriginHeaderKey ->
     ResHeaders (Custom w status headers data).1 !! key = default ∅ headers !! key) /\
  (forall b, Go.Marshal data = Some b ->
     StatusCode (Custom w status headers data).1 = status /\
     ResBody (Custom w status headers data).1 = b).
Proof.
  unfold Custom.
  destruct (Go.Marshal data) as [b|]; cbn [fst snd ResHeaders ResIsBase64Encoded
                                           StatusCode ResBody].
  all: rewrite addCors_content_type, lookup_insert_eq.
  all: split; [done|]; split; [done|]; split; [done|]; split.
  all: try (intros key H0 H1 H2 H3; rewrite addCors_frame by done;
            rewrite lookup_insert_ne by done; by destruct headers).
  - intros b0 Hb. by simplify_eq.
  - intros b0 Hb. discriminate Hb.
Qed.

(** X7. File and FileB64 answer with status 200 and a nil error, put the given
    content type under Content-Type whatever the caller's map held there,
    and keep the caller's other headers (the CORS headers apart). File
    returns the bytes as the body, not marked base64; FileB64 marks the body
    base64 and its body decodes to the bytes given. *)
Theorem File_frame (w : World) (contentType : string)
    (headers : option (gmap string string)) (fileBytes : string) :
  (let r := (File w contentType headers fileBytes).1 in
   StatusCode r = 200 /\ (File w contentType headers fileBytes).2 = None /\
   ResBody r = fileBytes /\ ResIsBase64Encoded r = false /\
   ResHeaders r !! ContentTypeKey = Some contentType /\
   forall key,
     key <> ContentTypeKey -> key <> CORSHeadersHeaderKey ->
     key <> CORSMethodsHeaderKey -> key <> CORSOriginHeaderKey ->
     ResHeaders r !! key = default ∅ headers !! key) /\
  (let r := (FileB64 w contentType headers fileBytes).1 in
   StatusCode r = 200 /\ (FileB64 w contentType headers fileBytes).2 = None /\
   DecodeString (ResBody r) = Some fileBytes /\ ResIsBase64Encoded r = true /\
   ResHeaders r !! ContentTypeKey = Some contentType /\
   forall key,
     key <> ContentTypeKey -> key <> CORSHeadersHeaderKey ->
     key <> CORSMethodsHeaderKey -> key <> CORSOriginHeaderKey ->
     ResHeaders r !! key = default ∅ headers !! key).
Proof.
  assert (forall key,
            match headers with
            | None => {[ContentTypeKey := contentType]}
            | Some h => <[ContentTypeKey := contentType]> h
            end !! key
            = if decide (ContentTypeKey = key) then Some contentType
              else default ∅ headers !! key) as Hh.
  { intros key. destruct headers as [h|]; simpl.
    - apply lookup_insert.
    - rewrite lookup_singleton. by rewrite lookup_empty. }
  cbv zeta. unfold File, FileB64.
  cbn [fst snd ResHeaders ResIsBase64Encoded StatusCode ResBody].
  rewrite addCors_content_type, Hh, decide_True by done.
  rewrite Base64Props.DecodeString_EncodeToString.
  split; repeat (split; [done|]).
  all: intros key H0 H1 H2 H3; rewrite addCors_frame by done.
  all: by rewrite Hh, decide_False by done.
Qed.

End LresExtra.

(** ** The transport adapter, whole *)

Module AdapterProps.
Import Events Runtime Lcom Lres LambdaRouter Spec GoExtra InOrder Adapter AdapterSpec.
Local Open Scope list_scope.

Lemma canonical_constants :
  CanonicalMIMEHeaderKey ContentTypeKey = ContentTypeKey /\
  CanonicalMIMEHeaderKey CORSHeadersHeaderKey = CORSHeadersHeaderKey /\
  CanonicalMIMEHeaderKey CORSMethodsHeaderKey = CORSMethodsHeaderKey /\
  CanonicalMIMEHeaderKey CORSOriginHeaderKey = CORSOriginHeaderKey.
Proof. evaluate_each. Qed.

Lemma Header_Set_constant (h : gmap string (list string)) (key value : string) :
  CanonicalMIMEHeaderKey key = key -> Header_Set h key value = <[key := [value]]> h.
Proof. intros H. unfold Header_Set. by rewrite H. Qed.

Lemma setCors_lookup (world : World) (h : gmap string (list string)) :
  Forall
    (fun '(envKey, headerKey) =>
       setCors world h !! headerKey =
       if String.eqb (Getenv world envKey) "" then h !! headerKey
       else Some [Getenv world envKey])
    cors_pairs.
Proof.
  destruct canonical_constants as (_ & C1 & C2 & C3).
  unfold setCors, cors_pairs.
  rewrite !Header_Set_constant by done.
  destruct (String.eqb (Getenv world CORSHeadersEnvKey) "") eqn:Eh;
  destruct (String.eqb (Getenv world CORSMethodsEnvKey) "") eqn:Em;
  destruct (String.eqb (Getenv world CORSOriginEnvKey) "") eqn:Eo; simpl negb; cbv iota.
  all: rewrite !Forall_cons, Forall_nil, ?Eh, ?Em, ?Eo.
  all: repeat match goal with |- _ /\ _ => split end.
  all: repeat first
         [ rewrite lookup_insert_eq
         | rewrite lookup_insert_ne by (by vm_compute) ].
  all: done.
Qed.

Lemma setCors_on_writer (world : World) (h h' : gmap string (list string))
    (rw : ResponseWriter) :
  header rw = h' ->
  Forall (fun '(_, headerKey) => h' !! headerKey = setCors world h !! headerKey)
    cors_pairs ->
  cors_on_writer world rw.
Proof.
  intros Hh Hsame. unfold cors_on_writer.
  pose proof (setCors_lookup world h) as Hl.
  unfold cors_pairs in *. rewrite !Forall_cons in *.
  destruct Hl as (L1 & L2 & L3 & _), Hsame as (S1 & S2 & S3 & _).
  rewrite Hh, S1, S2, S3, L1, L2, L3.
  repeat match goal with |- _ /\ _ => split end; try by rewrite Forall_nil.
  all: intros Hne; apply String.eqb_neq in Hne; by rewrite Hne.
Qed.

Lemma fail_writer (rw : ResponseWriter) (message : string) :
  code rw = None -> writeError rw = None ->
  fail rw message
  = ({| header := <[ContentTypeKey := [json_content_type]]> (header rw);
        code := Some 500;
        written := written rw +:+ error_document message;
        writeError := None |}, []).
Proof.
  intros Hcode Herr. unfold fail, Write, WriteHeader, with_header.
  cbn [code writeError header written]. rewrite Hcode.
  cbn [code writeError header written]. rewrite Herr.
  cbn [code writeError header written].
  by rewrite (Header_Set_constant _ _ _ (proj1 canonical_constants)).
Qed.

Lemma fail_after_cors (world : World) (rw : ResponseWriter) (message : string) :
  code rw = None -> writeError rw = None ->
  exists rw',
    fail (with_header (setCors world (header rw)) rw) message = (rw', []) /\
    is_failure rw rw' message /\ cors_on_writer world rw'.
Proof.
  intros Hcode Herr. eexists. split; [by apply fail_writer|]. split.
  - unfold is_failure. cbn [code written header with_header].
    by rewrite lookup_insert_eq.
  - eapply setCors_on_writer; [reflexivity|].
    cbn [header with_header]. unfold cors_pairs.
    rewrite !Forall_cons, Forall_nil.
    by rewrite !lookup_insert_ne by (by vm_compute).
Qed.

(** X8. When the body of the request cannot be read, ServeHTTP answers with
    status 500, the JSON content type and the error document for "Failed
    reading req body: " followed by the text of the error; the CORS headers
    of the environment are on the writer; nothing is logged, and the writer
    and the world are the same whatever the handler: it is not run. *)
Theorem ServeHTTP_read_failure (o : MapOrder) (corruptInputText : string -> string)
    (rw : ResponseWriter) (r : Request) (ctx : Context) (err : error)
    (world : World) :
  code rw = None -> writeError rw = None ->
  exists rw',
    is_failure rw rw' ("Failed reading req body: " +:+ Error_text err) /\
    cors_on_writer world rw' /\
    forall handler : Pipeline.Handler,
      ServeHTTP o corruptInputText handler rw r ctx (inr err) world
      = (rw', [], world).
Proof.
  intros Hcode Herr.
  destruct (fail_after_cors world rw ("Failed reading req body: " +:+ Error_text err)
              Hcode Herr) as (rw' & Hfail & Hf & Hc).
  exists rw'. split; [done|]. split; [done|]. intros handler.
  unfold ServeHTTP. by rewrite Hfail.
Qed.

(** X9. When the handler returns an error, or a response marked base64 whose
    body DecodeString rejects, ServeHTTP answers with status 500, the JSON
    content type and the error document for "Failed executing handler: " or
    "Handler returned invalid base64 data: " followed by the text of the
    error, whatever status and headers the response carried; the CORS
    headers of the environment are on the writer, and the world is the one
    the handler left. *)
Theorem ServeHTTP_handler_failure (o : MapOrder) (corruptInputText : string -> string)
    (handler : Pipeline.Handler) (rw : ResponseWriter) (r : Request)
    (ctx : Context) (body : string) (world world' : World)
    (res : APIGatewayProxyResponse) (err : option error) :
  code rw = None -> writeError rw = None ->
  handler ctx (ServeHTTP_event r body) world = ((res, err), world') ->
  (is_Some err \/
   (ResIsBase64Encoded res = true /\ DecodeString (ResBody res) = None)) ->
  exists rw',
    ServeHTTP o corruptInputText handler rw r ctx (inl body) world
    = (rw', [], world') /\
    is_failure rw rw'
      match err with
      | Some e => "Failed executing handler: " +:+ Error_text e
      | None => "Handler returned invalid base64 data: "
                  +:+ corruptInputText (ResBody res)
      end /\
    cors_on_writer world rw'.
Proof.
  intros Hcode Herr Hh Hcase. unfold ServeHTTP. rewrite Hh.
  destruct err as [e|].
  - destruct (fail_after_cors world rw ("Failed executing handler: " +:+ Error_text e)
                Hcode Herr) as (rw' & Hfail & Hf & Hc).
    exists rw'. by rewrite Hfail.
  - destruct Hcase as [[? [=]]|[Hb Hd]]. rewrite Hb, Hd.
    destruct (fail_after_cors world rw
                ("Handler returned invalid base64 data: "
                   +:+ corruptInputText (ResBody res))
                Hcode Herr) as (rw' & Hfail & Hf & Hc).
    exists rw'. by rewrite Hfail.
Qed.

Lemma success_run (o : MapOrder) (corruptInputText : string -> string)
    (handler : Pipeline.Handler) (rw : ResponseWriter) (r : Request)
    (ctx : Context) (body : string) (world world' : World)
    (res : APIGatewayProxyResponse) (resBody : string) :
  code rw = None -> writeError rw = None ->
  handler ctx (ServeHTTP_event r body) world = ((res, None), world') ->
  (if ResIsBase64Encoded res then DecodeString (ResBody res)
   else Some (ResBody res)) = Some resBody ->
  ServeHTTP o corruptInputText handler rw r ctx (inl body) world
  = ({| header :=
          writeHeaders
            (writeMultiValueHeaders (setCors world (header rw))
               (range_multi o (ResMultiValueHeaders res)))
            (range_single o (ResHeaders res));
        code := Some (StatusCode res);
        written := written rw +:+ resBody;
        writeError := None |}, [], world').
Proof.
  intros Hcode Herr Hh Hd. unfold ServeHTTP. rewrite Hh, Hd.
  unfold Write, WriteHeader, with_header.
  cbn [code writeError header written]. rewrite Hcode.
  cbn [code writeError header written]. rewrite Herr.
  by cbn [code writeError header written fst snd].
Qed.

(** X10. When the handler returns a response and a nil error, ServeHTTP sends
    the status code of the response and writes its body: as it is when the
    response is not marked base64, decoded when it is; nothing is logged and
    the world is the one the handler left. This holds in whatever order the
    headers of the response are ranged over. *)
Theorem ServeHTTP_success (o : MapOrder) (corruptInputText : string -> string)
    (handler : Pipeline.Handler) (rw : ResponseWriter) (r : Request)
    (ctx : Context) (body : string) (world world' : World)
    (res : APIGatewayProxyResponse) (resBody : string) :
  code rw = None -> writeError rw = None ->
  handler ctx (ServeHTTP_event r body) world = ((res, None), world') ->
  (if ResIsBase64Encoded res then DecodeString (ResBody res)
   else Some (ResBody res)) = Some resBody ->
  code (ServeHTTP o corruptInputText handler rw r ctx (inl body) world).1.1
    = Some (StatusCode res) /\
  written (ServeHTTP o corruptInputText handler rw r ctx (inl body) world).1.1
    = written rw +:+ resBody /\
  (ServeHTTP o corruptInputText handler rw r ctx (inl body) world).1.2 = [] /\
  (ServeHTTP o corruptInputText handler rw r ctx (inl body) world).2 = world'.
Proof.
  intros Hcode Herr Hh Hd.
  by rewrite (success_run o corruptInputText handler rw r ctx body world world'
                res resBody Hcode Herr Hh Hd).
Qed.

(** X11. A response built by FileB64 comes out of ServeHTTP as the file: the
    status is 200 and the bytes written are the bytes given to FileB64. *)
Theorem ServeHTTP_FileB64 (o : MapOrder) (corruptInputText : string -> string)
    (rw : ResponseWriter) (r : Request) (ctx : Context) (body : string)
    (world : World) (contentType : string)
    (headers : option (gmap string string)) (fileBytes : string) :
  code rw = None -> writeError rw = None ->
  let handler := answering (fun w => FileB64 w contentType headers fileBytes) in
  code (ServeHTTP o corruptInputText handler rw r ctx (inl body) world).1.1
    = Some 200 /\
  written (ServeHTTP o corruptInputText handler rw r ctx (inl body) world).1.1
    = written rw +:+ fileBytes.
Proof.
  intros Hcode Herr handler.
  rewrite (success_run o corruptInputText handler rw r ctx body world world
             (FileB64 world contentType headers fileBytes).1 fileBytes Hcode Herr).
  - done.
  - done.
  - unfold FileB64. cbn [fst ResIsBase64Encoded ResBody].
    apply Base64Props.DecodeString_EncodeToString.
Qed.

Lemma is_set_Get (h : gmap string (list string)) (name : string) :
  is_set h (CanonicalMIMEHeaderKey name) -> Header_Get h name <> "".
Proof. intros (v & vs & Hv & Hne). unfold Header_Get. by rewrite Hv. Qed.

Lemma writeHeaders_keeps_set_lemma (entries : list (string * string)) :
  forall (h : gmap string (list string)) (key : string),
    is_set h key -> writeHeaders h entries !! key = h !! key.
Proof.
  unfold writeHeaders.
  induction entries as [|[name value] entries IH]; intros h key Hset; [done|].
  cbn [fold_left].
  destruct (String.eqb_spec (Header_Get h name) "") as [Hempty|Hfull].
  - assert (CanonicalMIMEHeaderKey name <> key) as Hne.
    { intros <-. by apply (is_set_Get h name). }
    rewrite IH.
    + unfold Header_Set. by rewrite lookup_insert_ne.
    + destruct Hset as (v & vs & Hv & Hv').
      exists v, vs. unfold Header_Set. by rewrite lookup_insert_ne.
  - by apply IH.
Qed.

(** X12. The loop over the single-value headers of the response never touches
    a header that already holds a value that is not empty, in whatever
    order and for whatever entries it runs. *)
Theorem writeHeaders_keeps_set (entries : list (string * string))
    (h : gmap string (list string)) (key : string) :
  is_set h key -> writeHeaders h entries !! key = h !! key.
Proof. apply writeHeaders_keeps_set_lemma. Qed.

Lemma writeHeaders_keeps_set_witness :
  is_set {[ "Content-Type" := ["text/csv"] ]} "Content-Type" /\
  writeHeaders {[ "Content-Type" := ["text/csv"] ]}
    [("content-type", "application/json"); ("X-Trace", "1")] !! "Content-Type"
  = ({[ "Content-Type" := ["text/csv"] ]} : gmap string (list string)) !! "Content-Type".
Proof.
  assert (is_set {[ "Content-Type" := ["text/csv"] ]} "Content-Type") as H.
  { exists "text/csv", []. split; [by vm_compute|discriminate]. }
  exact (conj H (writeHeaders_keeps_set _ _ _ H)).
Defined.

Lemma writeValues_more (name : string) (values : list string) :
  forall (h : gmap string (list string)) (i : nat) (old : list string),
    h !! CanonicalMIMEHeaderKey name = Some old -> i <> 0%nat ->
    writeValues h name i values
    = <[CanonicalMIMEHeaderKey name := old ++ values]> h.
Proof.
  induction values as [|v values IH]; intros h i old Hold Hi; cbn [writeValues].
  - rewrite app_nil_r. by rewrite insert_id.
  - destruct (Nat.eqb_spec i 0) as [|_]; [done|].
    rewrite (IH _ _ (old ++ [v]));
      [|by unfold Header_Add; rewrite lookup_insert_eq, Hold|done].
    unfold Header_Add. rewrite Hold. cbn [default].
    by rewrite insert_insert_eq, <- app_assoc.
Qed.

Lemma writeValues_all (h : gmap string (list string)) (name : string)
    (values : list string) :
  values <> [] ->
  writeValues h name 0 values = <[CanonicalMIMEHeaderKey name := values]> h.
Proof.
  destruct values as [|v values]; [done|]. intros _. cbn [writeValues Nat.eqb].
  rewrite (writeValues_more name values _ 1 [v]);
    [|by unfold Header_Set; rewrite lookup_insert_eq|done].
  unfold Header_Set. by rewrite insert_insert_eq.
Qed.

Lemma writeValues_other (h : gmap string (list string)) (name : string)
    (values : list string) (key : string) :
  CanonicalMIMEHeaderKey name <> key ->
  writeValues h name 0 values !! key = h !! key.
Proof.
  intros Hne. destruct values as [|v values]; [done|].
  rewrite writeValues_all by done. by rewrite lookup_insert_ne.
Qed.

Lemma writeMultiValueHeaders_other (entries : list (string * list string)) :
  forall (h : gmap string (list string)) (key : string),
    key ∉ CanonicalMIMEHeaderKey <$> entries.*1 ->
    writeMultiValueHeaders h entries !! key = h !! key.
Proof.
  unfold writeMultiValueHeaders.
  induction entries as [|[name values] entries IH]; intros h key Hkey; [done|].
  cbn [fold_left]. rewrite fmap_cons, fmap_cons in Hkey. cbn [fst] in Hkey.
  apply not_elem_of_cons in Hkey as [Hne Hkey].
  rewrite IH by done. by apply writeValues_other.
Qed.

(** X13. The loop over the multi-value headers of the response, when no two of
    the header names have the same canonical form: a header with at least
    one value ends on the writer under its canonical name with exactly its
    values in their order, replacing what the writer held there; a header
    name the loop does not meet is left as it was. *)
Theorem writeMultiValueHeaders_written (entries : list (string * list string))
    (h : gmap string (list string)) :
  NoDup (CanonicalMIMEHeaderKey <$> entries.*1) ->
  (forall name values,
     (name, values) ∈ entries -> values <> [] ->
     writeMultiValueHeaders h entries !! CanonicalMIMEHeaderKey name = Some values) /\
  (forall key,
     key ∉ CanonicalMIMEHeaderKey <$> entries.*1 ->
     writeMultiValueHeaders h entries !! key = h !! key).
Proof.
  intros Hnd. split; [|intros key; apply writeMultiValueHeaders_other].
  revert h Hnd. induction entries as [|[name0 values0] entries IH];
    intros h Hnd name values Hin Hne.
  - by apply elem_of_nil in Hin.
  - rewrite !fmap_cons in Hnd. cbn [fst] in Hnd.
    apply NoDup_cons in Hnd as [Hfresh Hnd].
    apply elem_of_cons in Hin as [[= -> ->]|Hin].
    + unfold writeMultiValueHeaders. cbn [fold_left].
      fold (writeMultiValueHeaders (writeValues h name0 0 values0) entries).
      rewrite writeMultiValueHeaders_other by done.
      rewrite writeValues_all by done. by rewrite lookup_insert_eq.
    + unfold writeMultiValueHeaders. cbn [fold_left].
      fold (writeMultiValueHeaders (writeValues h name0 0 values0) entries).
      by apply IH.
Qed.

Lemma writeMultiValueHeaders_written_witness :
  NoDup (CanonicalMIMEHeaderKey <$> [("set-cookie", ["a=1"; "b=2"]); ("X-Empty", [])].*1) /\
  writeMultiValueHeaders {[ "Set-Cookie" := ["old"] ]}
    [("set-cookie", ["a=1"; "b=2"]); ("X-Empty", [])] !! "Set-Cookie"
  = Some ["a=1"; "b=2"].
Proof.
  assert (NoDup (CanonicalMIMEHeaderKey <$>
                   [("set-cookie", ["a=1"; "b=2"]); ("X-Empty", [])].*1)) as Hnd.
  { vm_compute. apply NoDup_cons. split; [|apply NoDup_singleton].
    rewrite list_elem_of_singleton. discriminate. }
  split; [exact Hnd|].
  apply (proj1 (writeMultiValueHeaders_written _ {[ "Set-Cookie" := ["old"] ]} Hnd)
           "set-cookie" ["a=1"; "b=2"]).
  - apply elem_of_cons. by left.
  - discriminate.
Defined.

Lemma writeHeaders_other (entries : list (string * string)) :
  forall (h : gmap string (list string)) (key : string),
    key ∉ CanonicalMIMEHeaderKey <$> entries.*1 ->
    writeHeaders h entries !! key = h !! key.
Proof.
  unfold writeHeaders.
  induction entries as [|[name value] entries IH]; intros h key Hkey; [done|].
  cbn [fold_left]. rewrite !fmap_cons in Hkey. cbn [fst] in Hkey.
  apply not_elem_of_cons in Hkey as [Hne Hkey].
  rewrite IH by done.
  destruct (String.eqb (Header_Get h name) ""); [|done].
  unfold Header_Set. by rewrite lookup_insert_ne.
Qed.

(** X24. The loop over the single-value headers of the response, when no
    two of the header names have the same canonical form: a header whose
    name has no value, or an empty first value, on the writer ends there
    under its canonical name with its one value; a header name the loop does
    not meet is left as it was. *)
Theorem writeHeaders_written (entries : list (string * string))
    (h : gmap string (list string)) :
  NoDup (CanonicalMIMEHeaderKey <$> entries.*1) ->
  (forall name value,
     (name, value) ∈ entries -> Header_Get h name = "" ->
     writeHeaders h entries !! CanonicalMIMEHeaderKey name = Some [value]) /\
  (forall key,
     key ∉ CanonicalMIMEHeaderKey <$> entries.*1 ->
     writeHeaders h entries !! key = h !! key).
Proof.
  intros Hnd. split; [|intros key; apply writeHeaders_other].
  revert h Hnd. induction entries as [|[name0 value0] entries IH];
    intros h Hnd name value Hin Hget.
  - by apply elem_of_nil in Hin.
  - rewrite !fmap_cons in Hnd. cbn [fst] in Hnd.
    apply NoDup_cons in Hnd as [Hfresh Hnd].
    unfold writeHeaders. cbn [fold_left].
    apply elem_of_cons in Hin as [[= -> ->]|Hin].
    + rewrite Hget. change (String.eqb "" "") with true. cbv iota.
      match goal with
      | |- fold_left ?f entries ?h1 !! _ = _ =>
          change (fold_left f entries h1) with (writeHeaders h1 entries)
      end.
      rewrite writeHeaders_other by done.
      unfold Header_Set. by rewrite lookup_insert_eq.
    + match goal with
      | |- fold_left ?f entries ?h1 !! _ = _ =>
          change (fold_left f entries h1) with (writeHeaders h1 entries)
      end.
      apply IH; [done..|].
      assert (CanonicalMIMEHeaderKey name0 <> CanonicalMIMEHeaderKey name) as Hne.
      { intros Heq. apply Hfresh. rewrite Heq.
        apply list_elem_of_fmap. exists name. split; [done|].
        apply list_elem_of_fmap. by exists (name, value). }
      destruct (String.eqb (Header_Get h name0) ""); [|done].
      unfold Header_Get, Header_Set in *. by rewrite lookup_insert_ne.
Qed.

Lemma writeHeaders_written_witness :
  NoDup (CanonicalMIMEHeaderKey <$> [("content-type", "text/csv"); ("X-Trace", "1")].*1) /\
  Header_Get ∅ "content-type" = "" /\
  writeHeaders ∅ [("content-type", "text/csv"); ("X-Trace", "1")] !! "Content-Type"
  = Some ["text/csv"].
Proof.
  assert (NoDup (CanonicalMIMEHeaderKey <$>
                   [("content-type", "text/csv"); ("X-Trace", "1")].*1)) as Hnd.
  { vm_compute. apply NoDup_cons. split; [|apply NoDup_singleton].
    rewrite list_elem_of_singleton. discriminate. }
  split; [exact Hnd|]. split; [reflexivity|].
  apply (proj1 (writeHeaders_written _ ∅ Hnd) "content-type" "text/csv").
  - apply elem_of_cons. by left.
  - reflexivity.
Defined.

(** X14. For a response without multi-value headers (as every builder of lres
    returns) the CORS headers ServeHTTP took from the environment are on the
    writer at the end, each with its one value: the single-value headers of
    the response do not replace them. *)
Theorem ServeHTTP_cors_kept (o : MapOrder) (corruptInputText : string -> string)
    (handler : Pipeline.Handler) (rw : ResponseWriter) (r : Request)
    (ctx : Context) (body : string) (world world' : World)
    (res : APIGatewayProxyResponse) (resBody : string) :
  fair o ->
  code rw = None -> writeError rw = None ->
  handler ctx (ServeHTTP_event r body) world = ((res, None), world') ->
  (if ResIsBase64Encoded res then DecodeString (ResBody res)
   else Some (ResBody res)) = Some resBody ->
  ResMultiValueHeaders res = ∅ ->
  cors_on_writer world
    (ServeHTTP o corruptInputText handler rw r ctx (inl body) world).1.1.
Proof.
  intros [Hmulti _] Hcode Herr Hh Hd Hempty.
  rewrite (success_run o corruptInputText handler rw r ctx body world world'
             res resBody Hcode Herr Hh Hd).
  cbn [fst]. rewrite Hempty.
  assert (range_multi o ∅ = []) as ->.
  { apply Permutation_nil_r. rewrite Hmulti. by rewrite map_to_list_empty. }
  unfold cors_on_writer. cbn [header].
  change (writeMultiValueHeaders (setCors world (header rw)) [])
    with (setCors world (header rw)).
  pose proof (setCors_lookup world (header rw)) as Hl.
  unfold cors_pairs in *. rewrite !Forall_cons in *.
  destruct Hl as (L1 & L2 & L3 & _).
  repeat match goal with |- _ /\ _ => split end; try by rewrite Forall_nil.
  all: intros Hne; pose proof Hne as Hne'; apply String.eqb_neq in Hne'.
  all: rewrite writeHeaders_keeps_set_lemma;
         [by rewrite ?L1, ?L2, ?L3, Hne'|].
  all: eexists _, []; split; [by rewrite ?L1, ?L2, ?L3, Hne'|done].
Qed.

(** X15. The event ServeHTTP builds: when the first Content-Type value of the
    request starts with "multipart/form-data; boundary" the event is marked
    base64 and its body decodes to the body read; otherwise the event is
    not marked and its body is the body read. Method and path are those of
    the request. *)
Theorem ServeHTTP_event_body (r : Request) (body : string) :
  (if Go.HasPrefix (LambdaRouter.Header_Get (Header r) ContentTypeKey)
        "multipart/form-data; boundary"
   then IsBase64Encoded (ServeHTTP_event r body) = true /\
        DecodeString (Body (ServeHTTP_event r body)) = Some body
   else IsBase64Encoded (ServeHTTP_event r body) = false /\
        Body (ServeHTTP_event r body) = body) /\
  HTTPMethod (ServeHTTP_event r body) = Method r /\
  Path (ServeHTTP_event r body) = URL_Path r.
Proof.
  unfold ServeHTTP_event. cbn [IsBase64Encoded Body HTTPMethod Path].
  destruct (Go.HasPrefix _ _); repeat split.
  apply Base64Props.DecodeString_EncodeToString.
Qed.

(** X16. A writer whose writes fail: ServeHTTP still sends the status (500 on a
    read failure, the status of the response on success), writes nothing,
    and logs the error of the write once. *)
Theorem ServeHTTP_broken_writer (o : MapOrder) (corruptInputText : string -> string)
    (handler : Pipeline.Handler) (rw : ResponseWriter) (r : Request)
    (ctx : Context) (world : World) (e : string) :
  code rw = None -> writeError rw = Some e ->
  (forall err,
     let out := ServeHTTP o corruptInputText handler rw r ctx (inr err) world in
     code out.1.1 = Some 500 /\ written out.1.1 = written rw /\
     out.1.2 = ["encodeErr [" +:+ e +:+ "]"]) /\
  (forall body res world',
     handler ctx (ServeHTTP_event r body) world = ((res, None), world') ->
     ResIsBase64Encoded res = false ->
     let out := ServeHTTP o corruptInputText handler rw r ctx (inl body) world in
     code out.1.1 = Some (StatusCode res) /\ written out.1.1 = written rw /\
     out.1.2 = ["writeErr [" +:+ e +:+ "]"]).
Proof.
  intros Hcode Herr. split.
  - intros err. cbv zeta. unfold ServeHTTP, fail, Write, WriteHeader, with_header.
    cbn [code writeError header written]. rewrite Hcode.
    cbn [code writeError header written]. rewrite Herr.
    by cbn [code writeError header written fst snd].
  - intros body res world' Hh Hb. cbv zeta. unfold ServeHTTP. rewrite Hh, Hb.
    unfold Write, WriteHeader, with_header.
    cbn [code writeError header written]. rewrite Hcode.
    cbn [code writeError header written]. rewrite Herr.
    by cbn [code writeError header written fst snd].
Qed.

End AdapterProps.

(** ** More on the middleware *)

Module LmwExtra.
Import Events Runtime Lcom Lres Ljwt Pipeline Spec LmwSpec.
Local Open Scope list_scope.

Lemma with_values_other (entries : list (string * any)) :
  forall (ctx : Context) (key : string),
    key ∉ entries.*1 -> with_values ctx entries !! key = ctx !! key.
Proof.
  unfold with_values.
  induction entries as [|[k v] entries IH]; intros ctx key Hkey; [done|].
  cbn [fold_left]. rewrite fmap_cons in Hkey. cbn [fst] in Hkey.
  apply not_elem_of_cons in Hkey as [Hne Hkey].
  rewrite IH by done. unfold WithValue. by rewrite lookup_insert_ne.
Qed.

Lemma with_values_lookup (entries : list (string * any)) :
  forall ctx : Context,
    NoDup entries.*1 ->
    Forall (fun '(k, v) => with_values ctx entries !! k = Some v) entries.
Proof.
  induction entries as [|[k v] entries IH]; intros ctx Hnd; [constructor|].
  rewrite fmap_cons in Hnd. cbn [fst] in Hnd.
  apply NoDup_cons in Hnd as [Hfresh Hnd].
  apply Forall_cons. split.
  - change (with_values ctx ((k, v) :: entries))
      with (with_values (WithValue ctx k v) entries).
    rewrite with_values_other by done. unfold WithValue. apply lookup_insert_eq.
  - apply (IH (WithValue ctx k v) Hnd).
Qed.

Section Middleware.
Variable K : Keys.
Variable X : External.

(** X17. When the token is accepted and its claims bind, DecodeStandardMW and
    DecodeExpandedMW run the next handler on the same request and world and
    on a context that, the claim keys being pairwise distinct, holds every
    field of the claims under its key (seven fields for the standard claims,
    twelve for the expanded ones) and is unchanged under every other key. *)
Theorem DecodeMW_success (ctx : Context) (req : APIGatewayProxyRequest)
    (w : World) (mapClaims : MapClaims X) (httpStatus : Z) :
  ExtractJWT X (Headers req) = (mapClaims, httpStatus, None) ->
  (forall c, ExtractStandard X mapClaims = inl c ->
     NoDup (standard_entries K c).*1 ->
     exists ctx',
       (forall next : Handler,
          Lmw.DecodeStandardMW K X next ctx req w = next ctx' req w) /\
       Forall (fun '(k, v) => ctx' !! k = Some v) (standard_entries K c) /\
       (forall key, key ∉ (standard_entries K c).*1 -> ctx' !! key = ctx !! key)) /\
  (forall c, ExtractCustom X mapClaims = inl c ->
     NoDup (expanded_entries K c).*1 ->
     exists ctx',
       (forall next : Handler,
          Lmw.DecodeExpandedMW K X next ctx req w = next ctx' req w) /\
       Forall (fun '(k, v) => ctx' !! k = Some v) (expanded_entries K c) /\
       (forall key, key ∉ (expanded_entries K c).*1 -> ctx' !! key = ctx !! key)).
Proof.
  intros Hjwt. split; intros c Hbind Hnd.
  - exists (with_values ctx (standard_entries K c)). split; [|split].
    + intros next. unfold Lmw.DecodeStandardMW. by rewrite Hjwt, Hbind.
    + by apply with_values_lookup.
    + intros key. apply with_values_other.
  - exists (with_values ctx (expanded_entries K c)). split; [|split].
    + intros next. unfold Lmw.DecodeExpandedMW. by rewrite Hjwt, Hbind.
    + by apply with_values_lookup.
    + intros key. apply with_values_other.
Qed.

Lemma StatusAndErrorRes_response (w : World) (status : Z) (err : error) :
  exists res,
    StatusAndErrorRes w status err = (res, None) /\
    StatusCode res = status /\
    ResBody res
    = error_wire_format status
        (message_shown (ExposeServerErrors w) status (Error_text err)).
Proof.
  unfold StatusAndErrorRes, StatusAndError, message_shown. cbn [Status Message].
  rewrite Z.geb_leb.
  destruct ((500 <=? status) && negb (ExposeServerErrors w)); cbn [Status].
  all: unfold Custom; rewrite (LresProps.Marshal_HTTPError (Build_HTTPError _ _)).
  all: eexists; split; [reflexivity|]; by split.
Qed.

(** X18. When the token is refused, the decoders answer with the status
    ExtractJWT gave (whatever it is) and the message of its error; when the
    token is accepted and its claims do not bind, they answer with status
    500 and the message of the binding error, replaced by the reason phrase
    when ExposeServerErrors is false. In both cases the error returned is
    nil and the response and the world are the same for every next handler:
    it is not run. *)
Theorem DecodeMW_failure (ctx : Context) (req : APIGatewayProxyRequest)
    (w : World) (mapClaims : MapClaims X) (httpStatus : Z) :
  (forall e, ExtractJWT X (Headers req) = (mapClaims, httpStatus, Some e) ->
     exists res,
       StatusCode res = httpStatus /\
       ResBody res = error_wire_format httpStatus
                       (message_shown (ExposeServerErrors w) httpStatus (Error_text e)) /\
       forall next : Handler,
         Lmw.DecodeStandardMW K X next ctx req w = ((res, None), w) /\
         Lmw.DecodeExpandedMW K X next ctx req w = ((res, None), w)) /\
  (ExtractJWT X (Headers req) = (mapClaims, httpStatus, None) ->
     (forall e, ExtractStandard X mapClaims = inr e ->
        exists res,
          StatusCode res = 500 /\
          ResBody res = error_wire_format 500
                          (message_shown (ExposeServerErrors w) 500 (Error_text e)) /\
          forall next : Handler,
            Lmw.DecodeStandardMW K X next ctx req w = ((res, None), w)) /\
     (forall e, ExtractCustom X mapClaims = inr e ->
        exists res,
          StatusCode res = 500 /\
          ResBody res = error_wire_format 500
                          (message_shown (ExposeServerErrors w) 500 (Error_text e)) /\
          forall next : Handler,
            Lmw.DecodeExpandedMW K X next ctx req w = ((res, None), w))).
Proof.
  split; [|intros Hjwt; split].
  - intros e Hjwt.
    destruct (StatusAndErrorRes_response w httpStatus e) as (res & Hres & Hc & Hb).
    exists res. split; [done|]. split; [done|]. intros next.
    unfold Lmw.DecodeStandardMW, Lmw.DecodeExpandedMW, built.
    by rewrite Hjwt, Hres.
  - intros e Hbind.
    destruct (StatusAndErrorRes_response w 500 e) as (res & Hres & Hc & Hb).
    exists res. split; [done|]. split; [done|]. intros next.
    unfold Lmw.DecodeStandardMW, built. rewrite Hjwt, Hbind.
    by rewrite <- Hres.
  - intros e Hbind.
    destruct (StatusAndErrorRes_response w 500 e) as (res & Hres & Hc & Hb).
    exists res. split; [done|]. split; [done|]. intros next.
    unfold Lmw.DecodeExpandedMW, built. rewrite Hjwt, Hbind.
    by rewrite <- Hres.
Qed.

Lemma contextVals_entries (lp : LambdaParams) (req : APIGatewayProxyRequest) :
  NoDup (lambda_entries K lp req).*1 ->
  Forall (fun '(k, v) => Lmw000.contextVals K lp req !! k = Some v)
    (lambda_entries K lp req).
Proof.
  intros Hnd. apply Forall_forall. intros [k v] Hin.
  by apply elem_of_list_to_map_1.
Qed.

(** X19. With pairwise distinct keys, what a handler behind
    InjectLambdaContextMW finds in the context. After src/lmw/lmw.go (when
    the unmarshalling returns no error): each of the nine values as it is,
    an empty string included. After src/unnamed/part_000: each value that is
    not an empty string, and under the key of an empty string what the
    incoming context held. Every other key is as in the incoming context. *)
Theorem InjectLambdaContextMW_entries (ctx : Context)
    (req : APIGatewayProxyRequest) (w : World) (lp : LambdaParams)
    (err : option error) :
  UnmarshalReq X req true zeroLambdaParams = (lp, err) ->
  NoDup (lambda_entries K lp req).*1 ->
  (err = None ->
   exists ctx',
     (forall next : Handler,
        Lmw.InjectLambdaContextMW K X next ctx req w = next ctx' req w) /\
     Forall (fun '(k, v) => ctx' !! k = Some v) (lambda_entries K lp req) /\
     (forall key, key ∉ (lambda_entries K lp req).*1 -> ctx' !! key = ctx !! key)) /\
  (exists ctx',
     (forall next : Handler,
        Lmw000.InjectLambdaContextMW K X next ctx req w = next ctx' req w) /\
     Forall (fun '(k, v) => ctx' !! k = if kept v then Some v else ctx !! k)
       (lambda_entries K lp req) /\
     (forall key, key ∉ (lambda_entries K lp req).*1 -> ctx' !! key = ctx !! key)).
Proof.
  intros Hun Hnd. split.
  - intros ->. exists (with_values ctx (lambda_entries K lp req)).
    split; [|split].
    + intros next. unfold Lmw.InjectLambdaContextMW. by rewrite Hun.
    + by apply with_values_lookup.
    + intros key. apply with_values_other.
  - exists (Lmw000.addToContext ctx (Lmw000.contextVals K lp req)).
    split; [|split].
    + intros next. unfold Lmw000.InjectLambdaContextMW. by rewrite Hun.
    + pose proof (contextVals_entries lp req Hnd) as Hvals.
      eapply Forall_impl; [exact Hvals|].
      intros [k v] Hk. rewrite LmwProps.addToContext_lookup, Hk.
      destruct v as [|s| | |]; try done. cbn [kept].
      by destruct (String.eqb s "").
    + intros key Hkey. rewrite LmwProps.addToContext_lookup.
      assert (Lmw000.contextVals K lp req !! key = None) as ->; [|done].
      apply not_elem_of_list_to_map_1. exact Hkey.
Qed.

Lemma fold_present (ctx : Context) (ctxVals : list string) :
  forall fields : list Field,
    fold_left
      (fun fields currentKey =>
         match Value ctx currentKey with
         | Nil => fields
         | val => fields ++ [Interface currentKey val]
         end)
      ctxVals fields
    = fields ++ present_fields ctx ctxVals.
Proof.
  unfold present_fields.
  induction ctxVals as [|key ctxVals IH]; intros fields; simpl.
  - by rewrite app_nil_r.
  - destruct (Value ctx key); rewrite IH; by rewrite <- ?app_assoc.
Qed.

Lemma logContextValues_event (ctx : Context) (res : APIGatewayProxyResponse)
    (ctxVals : list string) (w : World) :
  Lmw000.logContextValues ctx res ctxVals w
  = emit (Event (if StatusCode res >? 399 then ErrorLevel else InfoLevel)
            ((if StatusCode res >? 399
              then [RawJSON "body" (Go.json_string (ResBody res))] else [])
             ++ present_fields ctx ctxVals
             ++ [Int "statusCode" (StatusCode res)])
            "request finished") w.
Proof.
  unfold Lmw000.logContextValues.
  destruct (StatusCode res >? 399); cbn [Go.Marshal].
  all: by rewrite fold_present, <- app_assoc.
Qed.

(** X20. logContextValues adds exactly one event to the log, after what was
    logged before: at error level with the JSON-quoted body first when the
    status code is above 399, at info level without body otherwise; then one
    field for each listed key the context holds a value for, in the order
    of the list, and none for an absent key; the status code last. The
    environment and ExposeServerErrors are untouched. *)
Theorem logContextValues_one_event (ctx : Context) (res : APIGatewayProxyResponse)
    (ctxVals : list string) (w : World) :
  logged (Lmw000.logContextValues ctx res ctxVals w)
  = logged w ++
    [Event (if StatusCode res >? 399 then ErrorLevel else InfoLevel)
       ((if StatusCode res >? 399
         then [RawJSON "body" (Go.json_string (ResBody res))] else [])
        ++ present_fields ctx ctxVals
        ++ [Int "statusCode" (StatusCode res)])
       "request finished"] /\
  environ (Lmw000.logContextValues ctx res ctxVals w) = environ w /\
  ExposeServerErrors (Lmw000.logContextValues ctx res ctxVals w)
  = ExposeServerErrors w /\
  (forall key, key ∈ ctxVals -> ctx !! key = None ->
     forall val, Interface key val ∉ present_fields ctx ctxVals).
Proof.
  rewrite logContextValues_event. repeat split.
  intros key Hkey Habs val Hin. unfold present_fields in Hin.
  apply list_elem_of_omap in Hin as (k & Hk & Hsome).
  unfold Value in Hsome.
  destruct (ctx !! k) as [v|] eqn:E; simpl in Hsome; [|done].
  destruct v; simplify_eq.
Qed.

End Middleware.
End LmwExtra.

(** ** The middleware composed *)

Module PipelineProps.
Import Events Runtime Lcom Lres Ljwt Pipeline Spec LmwSpec.
Local Open Scope list_scope.

Section Middleware.
Variable K : Keys.
Variable X : External.

Lemma Lmw000_LogRequestMW_run (next : Handler) ctx req w :
  Lmw000.LogRequestMW K next ctx req w
  = (((match (next ctx req w).1.2 with
       | Some _ => with_StatusCode 500 (next ctx req w).1.1
       | None => (next ctx req w).1.1
       end), (next ctx req w).1.2),
     Lmw000.logContextValues ctx
       (match (next ctx req w).1.2 with
        | Some _ => with_StatusCode 500 (next ctx req w).1.1
        | None => (next ctx req w).1.1
        end) (logged_keys K) (next ctx req w).2).
Proof.
  unfold Lmw000.LogRequestMW.
  by destruct (next ctx req w) as [[res [e|]] w'].
Qed.

(** X21. LogRequestMW of src/unnamed/part_000 logs once per request, after
    everything the next handler logged: one event whose level is error
    exactly when the status code it returns is above 399 and whose last
    field is that status code; a next handler that returns an error is
    logged with status 500 at error level. The environment and
    ExposeServerErrors are as the next handler left them. *)
Theorem Lmw000_LogRequestMW_log (next : Handler) (ctx : Context)
    (req : APIGatewayProxyRequest) (w : World) :
  let out := Lmw000.LogRequestMW K next ctx req w in
  exists fields,
    logged out.2
    = logged (next ctx req w).2 ++
      [Event (if StatusCode out.1.1 >? 399 then ErrorLevel else InfoLevel)
         (fields ++ [Int "statusCode" (StatusCode out.1.1)]) "request finished"] /\
    environ out.2 = environ (next ctx req w).2 /\
    ExposeServerErrors out.2 = ExposeServerErrors (next ctx req w).2 /\
    (is_Some (next ctx req w).1.2 ->
     StatusCode out.1.1 = 500 /\ (StatusCode out.1.1 >? 399) = true).
Proof.
  cbv zeta. rewrite Lmw000_LogRequestMW_run. cbn [fst snd].
  rewrite LmwExtra.logContextValues_event.
  eexists. split; [|split; [done|split; [done|]]].
  - cbn [logged emit]. rewrite app_assoc. reflexivity.
  - intros [e He]. by rewrite He.
Qed.

(** X22. LogRequestMW of src/lmw/lmw.go always ends with one Printf line, which
    carries the method and the path of the request, the code (the status
    of the response, or 500 when the next handler returned an error), and
    the level ERR exactly when the next handler returned an error or the
    status is 400 or above; the structured error event is logged before it
    exactly when that code is above 399. All of it comes after what the
    next handler logged. *)
Theorem Lmw_LogRequestMW_log (next : Handler) (ctx : Context)
    (req : APIGatewayProxyRequest) (w : World) :
  let out := Lmw.LogRequestMW K next ctx req w in
  let failed := bool_decide (is_Some (next ctx req w).1.2) in
  let code := if failed then 500 else StatusCode (next ctx req w).1.1 in
  exists (events : list LogEvent) (format extra : string),
    logged out.2
    = logged (next ctx req w).2 ++ events ++
      [Printf format (if failed || (400 <=? code) then "ERR" else "INF")
         (HTTPMethod req) (Path req) code extra] /\
    (if code >? 399 then exists fields, events = [Event ErrorLevel fields "error encountered"]
     else events = []).
Proof.
  cbv zeta. unfold Lmw.LogRequestMW.
  destruct (next ctx req w) as [[res [e|]] w']; cbn [fst snd].
  - rewrite bool_decide_true by by eexists. cbn [orb].
    change (Go.StatusInternalServerError >? 399) with true. cbv iota.
    change (500 >? 399) with true. cbv iota.
    eexists _, _, _. split; [|by eexists].
    cbn [logged emit]. rewrite <- app_assoc. reflexivity.
  - rewrite bool_decide_false by (by intros [? ?]). cbn [orb].
    rewrite Z.geb_leb.
    destruct (StatusCode res >? 399) eqn:E; cbv iota.
    + eexists _, _, _. split; [|by eexists].
      cbn [logged emit]. rewrite <- app_assoc. reflexivity.
    + exists [], "[%s] [%s %s] [%d]%s", "". split; [|done].
      by cbn [logged emit app].
Qed.

(** X23. The chain of the tests, InjectLambdaContextMW around LogRequestMW (both
    of src/unnamed/part_000), with pairwise distinct keys: the response and
    the error are those LogRequestMW returns; the one event logged for the
    request has, for every value derived from the request that is not an
    empty string (the method, the path, the request id, the three parameter
    maps, the resolved ids), a field with its key and that value. *)
Theorem Inject_then_Log (next : Handler) (ctx : Context)
    (req : APIGatewayProxyRequest) (w : World) :
  NoDup (lambda_entries K (UnmarshalReq X req true zeroLambdaParams).1 req).*1 ->
  exists ctx' level fields,
    Lmw000.InjectLambdaContextMW K X (Lmw000.LogRequestMW K next) ctx req w
    = Lmw000.LogRequestMW K next ctx' req w /\
    logged (Lmw000.LogRequestMW K next ctx' req w).2
    = logged (next ctx' req w).2 ++ [Event level fields "request finished"] /\
    Forall (fun '(k, v) => kept v = true -> Interface k v ∈ fields)
      (lambda_entries K (UnmarshalReq X req true zeroLambdaParams).1 req).
Proof.
  intros Hnd.
  set (lp := (UnmarshalReq X req true zeroLambdaParams).1) in *.
  set (ctx' := Lmw000.addToContext ctx (Lmw000.contextVals K lp req)).
  exists ctx'. eexists _, _. split; [|split].
  - unfold Lmw000.InjectLambdaContextMW. fold lp.
    by destruct (UnmarshalReq X req true zeroLambdaParams).
  - rewrite Lmw000_LogRequestMW_run. cbn [snd].
    rewrite LmwExtra.logContextValues_event. cbn [logged emit]. reflexivity.
  - pose proof (LmwExtra.contextVals_entries K lp req Hnd) as Hvals.
    rewrite Forall_forall in Hvals. apply Forall_forall.
    intros [k v] Hin Hkept. specialize (Hvals _ Hin). cbv beta iota in Hvals.
    apply elem_of_app. right. apply elem_of_app. left.
    unfold present_fields. apply list_elem_of_omap. exists k. split.
    + change (logged_keys K) with (lambda_entries K lp req).*1.
      apply list_elem_of_fmap. by exists (k, v).
    + unfold Value, ctx'. rewrite LmwProps.addToContext_lookup, Hvals.
      destruct v as [|s| | |]; try done. cbn [kept] in Hkept.
      by destruct (String.eqb s "").
Qed.

End Middleware.
End PipelineProps.

(** ** The properties above at concrete inputs *)

Module Instances.
Import Events Runtime Lcom Lres Ljwt Pipeline Spec LmwSpec GoExtra InOrder
  Adapter AdapterSpec.
Local Open Scope list_scope.

Lemma stdpp_order_fair : fair stdpp_order.
Proof. by split. Qed.

Lemma sample_keys_distinct (lp : LambdaParams) (req : APIGatewayProxyRequest) :
  NoDup (lambda_entries Sample.keys lp req).*1.
Proof. apply (bool_decide_unpack _). by vm_compute. Qed.

Lemma ServeHTTP_read_failure_witness :
  code fresh = None /\ writeError fresh = None /\
  exists rw',
    is_failure fresh rw' ("Failed reading req body: " +:+ "unexpected EOF") /\
    cors_on_writer Sample.world_cors rw' /\
    forall handler : Handler,
      ServeHTTP stdpp_order Sample2.corruptInputText handler fresh
        Sample2.http_request ∅ (inr (errors_New "unexpected EOF")) Sample.world_cors
      = (rw', [], Sample.world_cors).
Proof.
  split; [reflexivity|]. split; [reflexivity|].
  exact (AdapterProps.ServeHTTP_read_failure stdpp_order Sample2.corruptInputText
           fresh Sample2.http_request ∅ (errors_New "unexpected EOF")
           Sample.world_cors eq_refl eq_refl).
Defined.

Lemma ServeHTTP_handler_failure_witness :
  exists rw',
    ServeHTTP stdpp_order Sample2.corruptInputText
      (Sample.mockHandler (Sample.response 200) (Some (errors_New "boom")))
      fresh Sample2.http_request ∅ (inl "") Sample.world_cors
    = (rw', [], Sample.world_cors) /\
    is_failure fresh rw' ("Failed executing handler: " +:+ "boom") /\
    cors_on_writer Sample.world_cors rw'.
Proof.
  exact (AdapterProps.ServeHTTP_handler_failure stdpp_order Sample2.corruptInputText
           (Sample.mockHandler (Sample.response 200) (Some (errors_New "boom")))
           fresh Sample2.http_request ∅ "" Sample.world_cors Sample.world_cors
           (Sample.response 200) (Some (errors_New "boom"))
           eq_refl eq_refl eq_refl (or_introl (ex_intro _ _ eq_refl))).
Defined.

Lemma ServeHTTP_success_witness :
  code (ServeHTTP stdpp_order Sample2.corruptInputText
          (Sample.mockHandler (Sample.response 204) None)
          fresh Sample2.http_request ∅ (inl "") Sample.world_cors).1.1
    = Some 204 /\
  written (ServeHTTP stdpp_order Sample2.corruptInputText
             (Sample.mockHandler (Sample.response 204) None)
             fresh Sample2.http_request ∅ (inl "") Sample.world_cors).1.1
    = "" +:+ "".
Proof.
  pose proof (AdapterProps.ServeHTTP_success stdpp_order Sample2.corruptInputText
                (Sample.mockHandler (Sample.response 204) None)
                fresh Sample2.http_request ∅ "" Sample.world_cors Sample.world_cors
                (Sample.response 204) "" eq_refl eq_refl eq_refl eq_refl)
    as (H1 & H2 & _).
  exact (conj H1 H2).
Defined.

Lemma ServeHTTP_FileB64_witness :
  code fresh = None /\ writeError fresh = None /\
  written (ServeHTTP stdpp_order Sample2.corruptInputText
             (answering (fun w => FileB64 w "text/csv" None "a,b"))
             fresh Sample2.http_request ∅ (inl "") Sample.world_cors).1.1
    = "" +:+ "a,b".
Proof.
  split; [reflexivity|]. split; [reflexivity|].
  exact (proj2 (AdapterProps.ServeHTTP_FileB64 stdpp_order Sample2.corruptInputText
                  fresh Sample2.http_request ∅ "" Sample.world_cors
                  "text/csv" None "a,b" eq_refl eq_refl)).
Defined.

Lemma ServeHTTP_cors_kept_witness :
  fair stdpp_order /\
  cors_on_writer Sample.world_cors
    (ServeHTTP stdpp_order Sample2.corruptInputText
       (Sample.mockHandler (Sample.response 204) None)
       fresh Sample2.http_request ∅ (inl "") Sample.world_cors).1.1.
Proof.
  split; [exact stdpp_order_fair|].
  exact (AdapterProps.ServeHTTP_cors_kept stdpp_order Sample2.corruptInputText
           (Sample.mockHandler (Sample.response 204) None)
           fresh Sample2.http_request ∅ "" Sample.world_cors Sample.world_cors
           (Sample.response 204) "" stdpp_order_fair
           eq_refl eq_refl eq_refl eq_refl eq_refl).
Defined.

Lemma ServeHTTP_broken_writer_witness :
  code Sample2.broken = None /\ writeError Sample2.broken = Some "broken pipe" /\
  (ServeHTTP stdpp_order Sample2.corruptInputText
     (Sample.mockHandler (Sample.response 204) None)
     Sample2.broken Sample2.http_request ∅ (inr (errors_New "unexpected EOF"))
     Sample.world_cors).1.2
  = ["encodeErr [" +:+ "broken pipe" +:+ "]"].
Proof.
  split; [reflexivity|]. split; [reflexivity|].
  exact (proj2 (proj2 (proj1 (AdapterProps.ServeHTTP_broken_writer stdpp_order
                                Sample2.corruptInputText
                                (Sample.mockHandler (Sample.response 204) None)
                                Sample2.broken Sample2.http_request ∅
                                Sample.world_cors "broken pipe" eq_refl eq_refl)
                         (errors_New "unexpected EOF")))).
Defined.

Lemma good_token :
  ExtractJWT Sample2.external (Headers (Sample2.with_token "good")) = (true, 200, None).
Proof. by vm_compute. Qed.

Lemma bad_token :
  ExtractJWT Sample2.external (Headers (Sample2.with_token "bad"))
  = (false, 401, Some (errors_New "token is malformed")).
Proof. by vm_compute. Qed.

Lemma DecodeMW_success_witness :
  exists ctx',
    (forall next : Handler,
       Lmw.DecodeStandardMW Sample.keys Sample2.external next ∅
         (Sample2.with_token "good") Sample.world
       = next ctx' (Sample2.with_token "good") Sample.world) /\
    Forall (fun '(k, v) => ctx' !! k = Some v)
      (standard_entries Sample.keys Sample2.claims).
Proof.
  assert (NoDup (standard_entries Sample.keys Sample2.claims).*1) as Hnd
    by (apply (bool_decide_unpack _); by vm_compute).
  destruct (proj1 (LmwExtra.DecodeMW_success Sample.keys Sample2.external ∅
                     (Sample2.with_token "good") Sample.world true 200 good_token)
              Sample2.claims eq_refl Hnd) as (ctx' & H1 & H2 & _).
  exists ctx'. exact (conj H1 H2).
Defined.

Lemma DecodeMW_failure_witness :
  exists res,
    StatusCode res = 401 /\
    forall next : Handler,
      Lmw.DecodeStandardMW Sample.keys Sample2.external next ∅
        (Sample2.with_token "bad") Sample.world = ((res, None), Sample.world) /\
      Lmw.DecodeExpandedMW Sample.keys Sample2.external next ∅
        (Sample2.with_token "bad") Sample.world = ((res, None), Sample.world).
Proof.
  destruct (proj1 (LmwExtra.DecodeMW_failure Sample.keys Sample2.external ∅
                     (Sample2.with_token "bad") Sample.world false 401)
              (errors_New "token is malformed") bad_token) as (res & H1 & _ & H3).
  exists res. exact (conj H1 H3).
Defined.

Lemma InjectLambdaContextMW_entries_witness :
  exists ctx',
    (forall next : Handler,
       Lmw.InjectLambdaContextMW Sample.keys Sample.external next ∅
         Sample.plain_get Sample.world
       = next ctx' Sample.plain_get Sample.world) /\
    ctx' !! "id" = Some (Str "") /\ ctx' !! "method" = Some (Str "GET").
Proof.
  destruct (proj1 (LmwExtra.InjectLambdaContextMW_entries Sample.keys Sample.external
                     ∅ Sample.plain_get Sample.world
                     (Sample.unmarshalReq Sample.plain_get true zeroLambdaParams).1
                     None eq_refl (sample_keys_distinct _ _)) eq_refl)
    as (ctx' & H1 & H2 & _).
  exists ctx'. split; [exact H1|].
  rewrite Forall_forall in H2. split.
  - apply (H2 ("id", Str "")). apply elem_of_cons. by left.
  - apply (H2 ("method", Str "GET")). apply elem_of_cons. right.
    apply elem_of_cons. by left.
Defined.

Lemma Inject_then_Log_witness :
  exists ctx' level fields,
    Lmw000.InjectLambdaContextMW Sample.keys Sample.external
      (Lmw000.LogRequestMW Sample.keys (Sample.mockHandler (Sample.response 400) None))
      ∅ Sample.plain_get Sample.world
    = Lmw000.LogRequestMW Sample.keys (Sample.mockHandler (Sample.response 400) None)
        ctx' Sample.plain_get Sample.world /\
    logged (Lmw000.LogRequestMW Sample.keys
              (Sample.mockHandler (Sample.response 400) None)
              ctx' Sample.plain_get Sample.world).2
    = [] ++ [Event level fields "request finished"] /\
    Interface "method" (Str "GET") ∈ fields.
Proof.
  destruct (PipelineProps.Inject_then_Log Sample.keys Sample.external
              (Sample.mockHandler (Sample.response 400) None)
              ∅ Sample.plain_get Sample.world (sample_keys_distinct _ _))
    as (ctx' & level & fields & H1 & H2 & H3).
  exists ctx', level, fields. split; [exact H1|]. split; [exact H2|].
  rewrite Forall_forall in H3.
  apply (H3 ("method", Str "GET")); [|reflexivity].
  apply elem_of_cons. right. apply elem_of_cons. by left.
Defined.

End Instances.
